(** * Breezy weather widget (src/App.jsx): a shallow embedding

    The component [App] keeps six React state variables, talks to two
    Open-Meteo endpoints and to the browser's geolocation capability, and
    renders a view from the state and from the static table [WMO].

    The embedding keeps the shape of the source:
    - an asynchronous handler is a computation in a small trace monad [Eff]:
      it records, in program order, every state setter it calls and every
      request it issues, and it either returns or throws a JavaScript error;
    - the outside world (how each promise settles) is an explicit oracle
      [World];
    - the state after a handler is the initial state with the recorded
      setters applied in order. *)

From Stdlib Require Import ZArith NArith.
From stdpp Require Import gmap strings list fin_maps.

Open Scope string_scope.
Open Scope list_scope.

(** ** JavaScript strings tested character by character

    [query] is the only string the code inspects ([String.prototype.trim]);
    it is modelled as its sequence of UTF-16 code units.  Strings that are
    only stored, compared with the empty string or displayed are [string]. *)

Definition jsstring : Type := list N.

(** ECMAScript [WhiteSpace] and [LineTerminator] code points, the set that
    [trim] strips. *)
Definition is_white_space (c : N) : bool :=
  ((c =? 0x0009) || (c =? 0x000A) || (c =? 0x000B) || (c =? 0x000C)
   || (c =? 0x000D) || (c =? 0x0020) || (c =? 0x00A0) || (c =? 0x1680)
   || ((0x2000 <=? c) && (c <=? 0x200A))
   || (c =? 0x2028) || (c =? 0x2029) || (c =? 0x202F) || (c =? 0x205F)
   || (c =? 0x3000) || (c =? 0xFEFF))%N.

Fixpoint trimStart (s : jsstring) : jsstring :=
  match s with
  | c :: s' => if is_white_space c then trimStart s' else s
  | [] => []
  end.

Definition trimEnd (s : jsstring) : jsstring := rev (trimStart (rev s)).

Definition trim (s : jsstring) : jsstring := trimEnd (trimStart s).

(** [!str]: a string is falsy exactly when it is empty. *)
Definition js_not (s : jsstring) : bool :=
  match s with [] => true | _ :: _ => false end.

(** [a || b] on strings. *)
Definition or_else (a b : string) : string :=
  match a with "" => b | _ => a end.

(** Surrogate code units. *)
Definition is_leading_surrogate (c : N) : bool := ((0xD800 <=? c) && (c <=? 0xDBFF))%N.
Definition is_trailing_surrogate (c : N) : bool := ((0xDC00 <=? c) && (c <=? 0xDFFF))%N.

(** [String.prototype.isWellFormed]: no unpaired surrogate.  A leading
    surrogate must be followed at once by a trailing one; a trailing one may
    only come there. *)
Fixpoint isWellFormed (s : jsstring) : bool :=
  match s with
  | [] => true
  | c :: s' =>
      if is_leading_surrogate c then
        match s' with
        | [] => false
        | d :: s'' => is_trailing_surrogate d && isWellFormed s''
        end
      else negb (is_trailing_surrogate c) && isWellFormed s'
  end.

(** Code units of an ASCII literal, for writing queries down. *)
Definition code_units (s : string) : jsstring :=
  map Ascii.N_of_ascii (String.list_ascii_of_string s).

(** ** The condition-code table (App.jsx, lines 7-36) *)

Record Entry := { label : string; emoji : string }.

Definition WMO_entries : list (Z * Entry) :=
  [ (0,  {| label := "Clear"; emoji := "☀️" |});
    (1,  {| label := "Mainly clear"; emoji := "🌤️" |});
    (2,  {| label := "Partly cloudy"; emoji := "⛅" |});
    (3,  {| label := "Overcast"; emoji := "☁️" |});
    (45, {| label := "Fog"; emoji := "🌫️" |});
    (48, {| label := "Depositing rime fog"; emoji := "🌫️" |});
    (51, {| label := "Light drizzle"; emoji := "🌦️" |});
    (53, {| label := "Drizzle"; emoji := "🌦️" |});
    (55, {| label := "Heavy drizzle"; emoji := "🌧️" |});
    (56, {| label := "Light freezing drizzle"; emoji := "🌧️" |});
    (57, {| label := "Freezing drizzle"; emoji := "🌧️" |});
    (61, {| label := "Light rain"; emoji := "🌧️" |});
    (63, {| label := "Rain"; emoji := "🌧️" |});
    (65, {| label := "Heavy rain"; emoji := "🌧️" |});
    (66, {| label := "Freezing rain"; emoji := "🌧️" |});
    (67, {| label := "Heavy freezing rain"; emoji := "🌧️" |});
    (71, {| label := "Light snow"; emoji := "🌨️" |});
    (73, {| label := "Snow"; emoji := "🌨️" |});
    (75, {| label := "Heavy snow"; emoji := "❄️" |});
    (77, {| label := "Snow grains"; emoji := "❄️" |});
    (80, {| label := "Light showers"; emoji := "🌦️" |});
    (81, {| label := "Showers"; emoji := "🌦️" |});
    (82, {| label := "Heavy showers"; emoji := "🌧️" |});
    (85, {| label := "Snow showers"; emoji := "🌨️" |});
    (86, {| label := "Heavy snow showers"; emoji := "❄️" |});
    (95, {| label := "Thunderstorm"; emoji := "⛈️" |});
    (96, {| label := "Thunderstorm + hail"; emoji := "⛈️" |});
    (99, {| label := "Thunderstorm + heavy hail"; emoji := "⛈️" |}) ]%Z.

(** The object literal [WMO], keyed by integer code. *)
Definition WMO : gmap Z Entry := list_to_map WMO_entries.

(** [tbl[code]] where [code] may be [undefined] (an array element read past
    the end): [undefined] is no key of the table. *)
Definition table_get (tbl : gmap Z Entry) (code : option Z) : option Entry :=
  code ≫= (tbl !!.).

(** [tbl[code]?.emoji || fb] and [tbl[code]?.label || fb]. *)
Definition emoji_or (tbl : gmap Z Entry) (code : option Z) (fb : string) : string :=
  match table_get tbl code with
  | Some e => or_else (emoji e) fb
  | None => fb
  end.

Definition label_or (tbl : gmap Z Entry) (code : option Z) (fb : string) : string :=
  match table_get tbl code with
  | Some e => or_else (label e) fb
  | None => fb
  end.

(** The two places that look a code up, each with its own fallback pair:
    the current-conditions card (lines 182, 185) and a forecast card
    (lines 206, 207).  The result is the pair (label, icon). *)
Definition fallback_current : string * string := ("Current conditions", "🌤️").
Definition fallback_daily : string * string := ("—", "⛅").

Definition describe_with (fb : string * string) (tbl : gmap Z Entry)
    (code : option Z) : string * string :=
  (label_or tbl code (fst fb), emoji_or tbl code (snd fb)).

Definition describe_current := describe_with fallback_current.
Definition describe_daily := describe_with fallback_daily.

(** ** Data model

    Coordinates and temperatures are JavaScript numbers.  The code never
    computes on them except through [Math.round]; they stay abstract. *)

Inductive Unit := fahrenheit | celsius.

#[global] Instance Unit_eq_dec : EqDecision Unit.
Proof. solve_decision. Defined.

(** [${unit}] in the forecast URL. *)
Definition unit_param (u : Unit) : string :=
  match u with fahrenheit => "fahrenheit" | celsius => "celsius" end.

(** Line 46: [unit === "fahrenheit" ? "mph" : "kmh"]. *)
Definition speedUnit (u : Unit) : string :=
  match u with fahrenheit => "mph" | celsius => "kmh" end.

(** Line 48. *)
Definition tempSuffix (u : Unit) : string :=
  match u with fahrenheit => "°F" | celsius => "°C" end.

(** A thrown JavaScript [Error]; the handlers read only [message]. *)
Record Error := { message : string }.

Inductive Outcome (A : Type) : Type :=
  | Returned (a : A)
  | Thrown (e : Error).
Arguments Returned {A} a.
Arguments Thrown {A} e.

(** [encodeURIComponent(name)] as the caller sees it: it throws a
    [URIError] (message "URI malformed") when [name] holds an unpaired
    surrogate, and otherwise returns the text that goes into the URL.  The
    request record of this development stands for the URL and holds the
    name itself, so the name is what is returned here. *)
Definition encodeURIComponent (name : jsstring) : Outcome jsstring :=
  if isWellFormed name then Returned name
  else Thrown {| message := "URI malformed" |}.

(** A settled [fetch]: the response's [ok] flag and what [res.json()]
    settles to. *)
Record Response (A : Type) := { ok : bool; json : Outcome A }.
Arguments ok {A} _.
Arguments json {A} _.

Section App.

Context {number : Type}.

Record Place := { name : string; country : string; lat : number; lon : number }.

(** One element of the geocoding [results] array. *)
Record GeoResult :=
  { r_name : string; r_country_code : string;
    r_latitude : number; r_longitude : number }.

(** The geocoding body as far as [data?.results?.length] sees it: [None] is
    a body without a [results] array. *)
Record GeoData := { results : option (list GeoResult) }.

Record Current :=
  { c_temperature_2m : number; c_apparent_temperature : number;
    c_relative_humidity_2m : number; c_wind_speed_10m : number;
    c_weather_code : option Z; c_time : string }.

(** The [daily] object: parallel arrays, each possibly missing. *)
Record Daily :=
  { time : option (list string);
    weather_code : option (list Z);
    temperature_2m_max : option (list number);
    temperature_2m_min : option (list number) }.

(** The forecast body, stored as it comes in [wx]. *)
Record Payload := { current : option Current; daily : option Daily }.

(** The six [useState] cells (lines 39-44).  [place] and [wx] start as
    [null]; [error] is a string, the empty string meaning no error. *)
Record State :=
  { query : jsstring;
    unit_ : Unit;
    place : option Place;
    wx : option Payload;
    loading : bool;
    error : string }.

(** ** The outside world *)

Inductive Request :=
  | GeocodeReq (name : jsstring)
      (* geocoding-api.open-meteo.com/v1/search?name=..&count=1&language=en&format=json *)
  | ForecastReq (latitude longitude : number) (temperature_unit wind_speed_unit : string)
      (* api.open-meteo.com/v1/forecast?latitude=..&longitude=..&current=..&daily=..
         &temperature_unit=..&wind_speed_unit=..&timezone=auto *).

(** How each promise settles: [Thrown] is a rejected promise.
    [geolocation] is [None] when [navigator.geolocation] is missing;
    otherwise it tells which callback [getCurrentPosition] invokes. *)
Record World :=
  { geocoding : jsstring -> Outcome (Response GeoData);
    forecast : number -> number -> string -> string -> Outcome (Response Payload);
    geolocation : option (Outcome (number * number)) }.

(** ** Effects *)

Inductive Event :=
  | SetQuery (q : jsstring)
  | SetUnit (u : Unit)
  | SetPlace (p : Place)
  | SetWx (w : Payload)
  | SetLoading (b : bool)
  | SetError (msg : string)
  | Fetch (req : Request)
  | GetCurrentPosition.

(** A handler run to completion: the events in program order and how the
    body completed. *)
Definition Eff (A : Type) : Type := list Event * Outcome A.

Definition ret {A} (a : A) : Eff A := ([], Returned a).

Definition throw {A} (e : Error) : Eff A := ([], Thrown e).

Definition bind {A B} (m : Eff A) (k : A -> Eff B) : Eff B :=
  match m with
  | (t, Returned a) => (t ++ fst (k a), snd (k a))
  | (t, Thrown e) => (t, Thrown e)
  end.

Definition emit (ev : Event) : Eff unit := ([ev], Returned tt).

(** [try { body } catch (err) { handler err }]. *)
Definition try_catch {A} (body : Eff A) (handler : Error -> Eff A) : Eff A :=
  match body with
  | (t, Returned a) => (t, Returned a)
  | (t, Thrown e) => (t ++ fst (handler e), snd (handler e))
  end.

(** [... finally { fin }]: [fin] runs on both exits; when it completes
    normally the completion of the protected block stands. *)
Definition finally {A} (m : Eff A) (fin : Eff unit) : Eff A :=
  match fin with
  | (t', Returned _) => (fst m ++ t', snd m)
  | (t', Thrown e) => (fst m ++ t', Thrown e)
  end.

(** [await p] for a promise the world settles. *)
Definition await {A} (p : Outcome A) : Eff A := ([], p).

End App.

Arguments Place : clear implicits.
Arguments GeoResult : clear implicits.
Arguments GeoData : clear implicits.
Arguments Current : clear implicits.
Arguments Daily : clear implicits.
Arguments Payload : clear implicits.
Arguments State : clear implicits.
Arguments Request : clear implicits.
Arguments World : clear implicits.
Arguments Event : clear implicits.
Arguments Eff : clear implicits.

(** [Eff] is a monad; stdpp's notations [x ← m; k] and [m;; k] sequence
    handlers the way statements follow each other in the source. *)
#[global] Instance Eff_ret {number} : MRet (Eff number) := @ret number.
#[global] Instance Eff_bind {number} : MBind (Eff number) :=
  λ A B k m, bind m k.

#[global] Instance Outcome_ret : MRet Outcome := @Returned.
#[global] Instance Outcome_bind : MBind Outcome :=
  λ A B k o, match o with Returned a => k a | Thrown e => Thrown e end.

(** ** The handlers of [App] *)

Section Handlers.

Context {number : Type}.
Implicit Types (W : World number) (s : State number).

(** [fetch(url)]: the request is issued, then the promise settles. *)
Definition fetch_geocoding W (name : jsstring) : Eff number (Response (GeoData number)) :=
  emit (Fetch (GeocodeReq name));; await (geocoding W name).

Definition fetch_forecast W (lat lon : number) (temperature_unit wind_speed_unit : string)
    : Eff number (Response (Payload number)) :=
  emit (Fetch (ForecastReq lat lon temperature_unit wind_speed_unit));;
  await (forecast W lat lon temperature_unit wind_speed_unit).

(** Lines 61-71.  The URL is built first (lines 62-64), and building it can
    throw; [fetch] comes after. *)
Definition geocodeCity W (name : jsstring) : Eff number (Place number) :=
  encoded ← await (encodeURIComponent name);
  res ← fetch_geocoding W encoded;
  if negb (ok res) then throw {| message := "Geocoding failed" |} else
  data ← await (json res);
  match results data with
  | Some (r :: _) =>
      mret {| name := r_name r; country := r_country_code r;
              lat := r_latitude r; lon := r_longitude r |}
  | Some [] | None => throw {| message := "No results for that city" |}
  end.

(** Lines 73-79.  [unit] and [speedUnit] are the values of the render that
    created the closure. *)
Definition fetchWeather W (unit : Unit) (lat lon : number) : Eff number (Payload number) :=
  res ← fetch_forecast W lat lon (unit_param unit) (speedUnit unit);
  if negb (ok res) then throw {| message := "Weather fetch failed" |} else
  data ← await (json res);
  mret data.

(** Lines 81-96.  [e?.preventDefault()] touches neither the state nor the
    network and is left out. *)
Definition searchCity W s : Eff number () :=
  emit (SetError "");;
  if js_not (trim (query s)) then mret () else
  finally
    (try_catch
       (emit (SetLoading true);;
        p ← geocodeCity W (trim (query s));
        emit (SetPlace p);;
        w ← fetchWeather W (unit_ s) (lat p) (lon p);
        emit (SetWx w))
       (λ err, emit (SetError (or_else (message err) "Something went wrong"))))
    (emit (SetLoading false)).

(** Lines 98-123.  The two callbacks of [getCurrentPosition] run after the
    handler has returned; the world says which one. *)
Definition useMyLocation W s : Eff number () :=
  emit (SetError "");;
  match geolocation W with
  | None => emit (SetError "Geolocation not supported")
  | Some position =>
      emit (SetLoading true);;
      emit GetCurrentPosition;;
      match position with
      | Returned (lat, lon) =>
          finally
            (try_catch
               (w ← fetchWeather W (unit_ s) lat lon;
                emit (SetWx w);;
                emit (SetPlace {| name := "My location"; country := "";
                                  lat := lat; lon := lon |}))
               (λ err, emit (SetError (or_else (message err) "Failed to fetch weather"))))
            (emit (SetLoading false))
      | Thrown err =>
          emit (SetLoading false);;
          emit (SetError (or_else (message err) "Location permission denied"))
      end
  end.

(** Lines 126-140: the body of the effect with dependency list [[unit]],
    run in the render whose state is [s]. *)
Definition unit_effect W s : Eff number () :=
  match place s with
  | None => mret ()
  | Some p =>
      emit (SetLoading true);;
      finally
        (try_catch
           (w ← fetchWeather W (unit_ s) (lat p) (lon p);
            emit (SetWx w))
           (λ err, emit (SetError (or_else (message err) "Failed to refresh weather"))))
        (emit (SetLoading false))
  end.

(** What a setter does to the state. *)
Definition update (ev : Event number) s : State number :=
  match ev with
  | SetQuery q => {| query := q; unit_ := unit_ s; place := place s; wx := wx s;
                     loading := loading s; error := error s |}
  | SetUnit u => {| query := query s; unit_ := u; place := place s; wx := wx s;
                    loading := loading s; error := error s |}
  | SetPlace p => {| query := query s; unit_ := unit_ s; place := Some p; wx := wx s;
                     loading := loading s; error := error s |}
  | SetWx w => {| query := query s; unit_ := unit_ s; place := place s; wx := Some w;
                  loading := loading s; error := error s |}
  | SetLoading b => {| query := query s; unit_ := unit_ s; place := place s; wx := wx s;
                       loading := b; error := error s |}
  | SetError msg => {| query := query s; unit_ := unit_ s; place := place s; wx := wx s;
                       loading := loading s; error := msg |}
  | Fetch _ | GetCurrentPosition => s
  end.

(** The toggle buttons (lines 248, 254) call [setUnit u].  React re-renders
    and re-runs the effect only when [unit] changed; the effect then sees the
    new unit and the place of that render. *)
Definition changeUnit W (u : Unit) s : Eff number () :=
  emit (SetUnit u);;
  if decide (u = unit_ s) then mret () else unit_effect W (update (SetUnit u) s).

(** The state once a handler has run to completion. *)
Definition state_after {A} (m : Eff number A) s : State number :=
  foldl (λ s ev, update ev s) s m.1.

(** The requests a handler issued, in order. *)
Definition requests {A} (m : Eff number A) : list (Request number) :=
  omap (λ ev, match ev with Fetch r => Some r | _ => None end) m.1.

(** Lines 39-44. *)
Definition initial_state : State number :=
  {| query := []; unit_ := fahrenheit; place := None; wx := None;
     loading := false; error := "" |}.

End Handlers.

(** ** The view (lines 142-224), as far as it depends on the state *)

Section View.

Context {number : Type}.
Context (Math_round : number → number) (NaN : number).
Context (formatDay formatTime : string → string).

(** Lines 50-53. *)
Definition title (s : State number) : string :=
  match place s with
  | None => "Weather"
  | Some p =>
      name p +:+ (match country p with "" => "" | c => ", " +:+ c end)
  end.

(** Lines 164-166: [{error && <p>..</p>}]. *)
Definition error_notice (s : State number) : option string :=
  match error s with "" => None | msg => Some msg end.

(** [arr[i]]: [undefined] past the end, a [TypeError] when [arr] itself is
    [undefined]. *)
Definition index {A} (arr : option (list A)) (i : nat) : Outcome (option A) :=
  match arr with
  | Some l => Returned (l !! i)
  | None => Thrown {| message := "TypeError" |}
  end.

(** [Math.round(x)] where [x] may be [undefined]. *)
Definition round_elem (x : option number) : number :=
  match x with Some n => Math_round n | None => NaN end.

(** One cell of the forecast grid (lines 204-212). *)
Record Card :=
  { card_day : string; card_emoji : string; card_label : string;
    card_max : number; card_min : number; card_suffix : string }.

Definition day_card (tbl : gmap Z Entry) (u : Unit) (d : Daily number)
    (date : string) (i : nat) : Outcome Card :=
  code ← index (weather_code d) i;
  tmax ← index (temperature_2m_max d) i;
  tmin ← index (temperature_2m_min d) i;
  mret {| card_day := formatDay date;
          card_emoji := (describe_daily tbl code).2;
          card_label := (describe_daily tbl code).1;
          card_max := round_elem tmax; card_min := round_elem tmin;
          card_suffix := tempSuffix u |}.

(** The card for index [i] when the three value arrays are present. *)
Definition card_at (tbl : gmap Z Entry) (u : Unit) (codes : list Z)
    (maxs mins : list number) (i : nat) (date : string) : Card :=
  {| card_day := formatDay date;
     card_emoji := (describe_daily tbl (codes !! i)).2;
     card_label := (describe_daily tbl (codes !! i)).1;
     card_max := round_elem (maxs !! i);
     card_min := round_elem (mins !! i);
     card_suffix := tempSuffix u |}.

(** [arr.map((x, i) => f x i)] for a callback that may throw. *)
Fixpoint map_indexed {A B} (f : A → nat → Outcome B) (i : nat) (l : list A)
    : Outcome (list B) :=
  match l with
  | [] => Returned []
  | x :: l' =>
      y ← f x i;
      ys ← map_indexed f (S i) l';
      mret (y :: ys)
  end.

Inductive Grid :=
  | NoForecastYet
  | Cards (cards : list Card).

(** Lines 203-215: [daily?.time?.slice(0, 5).map(..) || <p>No forecast
    yet.</p>]; an array, even an empty one, is truthy. *)
Definition forecast_grid (tbl : gmap Z Entry) (s : State number) : Outcome Grid :=
  match wx s ≫= daily with
  | None => Returned NoForecastYet
  | Some d =>
      match time d with
      | None => Returned NoForecastYet
      | Some dates =>
          cards ← map_indexed (day_card tbl (unit_ s) d) 0 (take 5 dates);
          mret (Cards cards)
      end
  end.

(** The current-conditions card (lines 178-196). *)
Record Conditions :=
  { cc_emoji : string; cc_temperature : number; cc_label : string;
    cc_feels_like : number; cc_humidity : number; cc_wind : number;
    cc_wind_unit : string; cc_updated : string; cc_suffix : string }.

Inductive CurrentView :=
  | LoadingView
  | ConditionsView (c : Conditions)
  | PromptView.

Definition current_view (tbl : gmap Z Entry) (s : State number) : CurrentView :=
  if loading s then LoadingView else
  match wx s ≫= current with
  | Some c =>
      ConditionsView
        {| cc_emoji := (describe_current tbl (c_weather_code c)).2;
           cc_temperature := Math_round (c_temperature_2m c);
           cc_label := (describe_current tbl (c_weather_code c)).1;
           cc_feels_like := Math_round (c_apparent_temperature c);
           cc_humidity := c_relative_humidity_2m c;
           cc_wind := Math_round (c_wind_speed_10m c);
           cc_wind_unit := speedUnit (unit_ s);
           cc_updated := formatTime (c_time c);
           cc_suffix := tempSuffix (unit_ s) |}
  | None => PromptView
  end.

End View.

Arguments Card : clear implicits.
Arguments Grid : clear implicits.
Arguments Conditions : clear implicits.
Arguments CurrentView : clear implicits.

(** ** Around the cards: page title, unit pill and toggle *)

(** Lines 55-59: the effect that follows [title] writes [document.title]. *)
Definition document_title {number} (s : State number) : string :=
  title s +:+ " • Breezy".

(** Lines 263-269: the text of [UnitPill]. *)
Definition UnitPill (unit : Unit) : string :=
  "Unit: " +:+ (match unit with fahrenheit => "°F" | celsius => "°C" end).

(** Lines 244-261: the two buttons of [Toggle].  A button is highlighted
    when its class list is the indigo one; [tb_sets] is the argument its
    [onClick] passes to [setUnit]. *)
Record ToggleButton :=
  { tb_caption : string; tb_highlighted : bool; tb_sets : Unit }.

Definition Toggle (unit : Unit) : list ToggleButton :=
  [ {| tb_caption := "°F"; tb_highlighted := bool_decide (unit = fahrenheit);
       tb_sets := fahrenheit |};
    {| tb_caption := "°C"; tb_highlighted := bool_decide (unit = celsius);
       tb_sets := celsius |} ].

(** Whether [loading] is true at each moment a request goes out, when the
    events [evs] are played from the state [s]. *)
Fixpoint loading_at_each_fetch {number} (evs : list (Event number))
    (s : State number) : bool :=
  match evs with
  | [] => true
  | ev :: evs' =>
      match ev with Fetch _ => loading s | _ => true end
      && loading_at_each_fetch evs' (update ev s)
  end.

(** ** The module-level table and the component state side by side

    [WMO] is a mutable object as far as the language goes.  A heap holds it
    next to the hook cells, and an event acts on the heap as the program
    does: the setters write the hook cells. *)

Record Heap (number : Type) := { table : gmap Z Entry; hooks : State number }.
Arguments table {number} _.
Arguments hooks {number} _.

Definition heap_step {number} (h : Heap number) (ev : Event number) : Heap number :=
  {| table := table h; hooks := update ev (hooks h) |}.

Definition heap_after {number} (evs : list (Event number)) (h : Heap number) : Heap number :=
  foldl heap_step h evs.

(** The page as loaded. *)
Definition initial_heap {number} : Heap number :=
  {| table := WMO; hooks := initial_state |}.

(** ** Concrete worlds, with integers for numbers *)

Module Samples.

#[local] Open Scope Z_scope.

Definition orlando : Place Z :=
  {| name := "Orlando"; country := "US"; lat := 28; lon := -81 |}.

Definition paris_result : GeoResult Z :=
  {| r_name := "Paris"; r_country_code := "FR"; r_latitude := 48; r_longitude := 2 |}.

Definition paris : Place Z :=
  {| name := "Paris"; country := "FR"; lat := 48; lon := 2 |}.

Definition week (n : nat) : Daily Z :=
  {| time := Some (take n ["2025-01-01"; "2025-01-02"; "2025-01-03"; "2025-01-04";
                           "2025-01-05"; "2025-01-06"; "2025-01-07"]);
     weather_code := Some (take n [0; 3; 61; 4; 95; 71; 2]);
     temperature_2m_max := Some (take n [70; 71; 72; 73; 74; 75; 76]);
     temperature_2m_min := Some (take n [50; 51; 52; 53; 54; 55; 56]) |}.

Definition sunny : Payload Z :=
  {| current := Some {| c_temperature_2m := 70; c_apparent_temperature := 72;
                        c_relative_humidity_2m := 40; c_wind_speed_10m := 5;
                        c_weather_code := Some 0; c_time := "2025-01-01T12:00" |};
     daily := Some (week 7%nat) |}.

Definition ok_with {A} (a : A) : Outcome (Response A) :=
  Returned {| ok := true; json := Returned a |}.

Definition http_error {A} : Outcome (Response A) :=
  Returned {| ok := false; json := Thrown {| message := "Unexpected token" |} |}.

(** Geocoding finds Paris; the forecast service answers 500. *)
Definition forecast_down : World Z :=
  {| geocoding := λ _, ok_with {| results := Some [paris_result] |};
     forecast := λ _ _ _ _, http_error;
     geolocation := Some (Returned (28, -81)) |}.

(** Geocoding finds nothing. *)
Definition no_match : World Z :=
  {| geocoding := λ _, ok_with {| results := Some [] |};
     forecast := λ _ _ _ _, ok_with sunny;
     geolocation := None |}.

(** Everything works. *)
Definition all_up : World Z :=
  {| geocoding := λ _, ok_with {| results := Some [paris_result] |};
     forecast := λ _ _ _ _, ok_with sunny;
     geolocation := Some (Returned (28, -81)) |}.

(** Orlando is on screen, nothing in flight. *)
Definition showing_orlando (q : jsstring) : State Z :=
  {| query := q; unit_ := fahrenheit; place := Some orlando; wx := Some sunny;
     loading := false; error := "" |}.

(** The user has typed Paris. *)
Definition searching_paris : State Z := showing_orlando (code_units "Paris").

(** The same, with a request in flight. *)
Definition search_in_flight : State Z :=
  {| query := code_units "Paris"; unit_ := fahrenheit; place := Some orlando;
     wx := Some sunny; loading := true; error := "" |}.

(** A failed search left its message; the box now holds three spaces. *)
Definition blank_after_error : State Z :=
  {| query := code_units "   "; unit_ := fahrenheit; place := Some orlando;
     wx := Some sunny; loading := false; error := "No results for that city" |}.

(** A forecast of three days only. *)
Definition three_days : State Z :=
  {| query := []; unit_ := celsius; place := Some orlando;
     wx := Some {| current := None; daily := Some (week 3%nat) |};
     loading := false; error := "" |}.

(** The browser has no geolocation; the services work. *)
Definition no_geolocation : World Z :=
  {| geocoding := λ _, ok_with {| results := Some [paris_result] |};
     forecast := λ _ _ _ _, ok_with sunny;
     geolocation := None |}.

(** The user declines the permission prompt; the error has no message. *)
Definition permission_denied : World Z :=
  {| geocoding := λ _, ok_with {| results := Some [paris_result] |};
     forecast := λ _ _ _ _, ok_with sunny;
     geolocation := Some (Thrown {| message := "" |}) |}.

(** The geocoding service answers 503. *)
Definition geocoding_down : World Z :=
  {| geocoding := λ _, http_error;
     forecast := λ _ _ _ _, ok_with sunny;
     geolocation := None |}.

(** The network is unreachable and the rejection carries no message. *)
Definition offline : World Z :=
  {| geocoding := λ _, Thrown {| message := "" |};
     forecast := λ _ _ _ _, Thrown {| message := "" |};
     geolocation := Some (Returned (28, -81)) |}.


(** The query as typed with blanks around it. *)
Definition searching_padded : State Z := showing_orlando (code_units "  Paris ").

(** A forecast whose [time] array is empty and whose other arrays are
    missing. *)
Definition no_days : State Z :=
  {| query := []; unit_ := fahrenheit; place := Some orlando;
     wx := Some {| current := None;
                   daily := Some {| time := Some []; weather_code := None;
                                    temperature_2m_max := None;
                                    temperature_2m_min := None |} |};
     loading := false; error := "" |}.

(** Two dates, no [weather_code] array. *)
Definition codes_missing : State Z :=
  {| query := []; unit_ := fahrenheit; place := Some orlando;
     wx := Some {| current := None;
                   daily := Some {| time := Some ["2025-01-01"; "2025-01-02"];
                                    weather_code := None;
                                    temperature_2m_max := Some [70; 71];
                                    temperature_2m_min := Some [50; 51] |} |};
     loading := false; error := "" |}.

(** Three dates, values for the first day only. *)
Definition ragged : State Z :=
  {| query := []; unit_ := fahrenheit; place := Some orlando;
     wx := Some {| current := None;
                   daily := Some {| time := Some ["2025-01-01"; "2025-01-02"; "2025-01-03"];
                                    weather_code := Some [0];
                                    temperature_2m_max := Some [70];
                                    temperature_2m_min := Some [50] |} |};
     loading := false; error := "" |}.

(** An old error is still on screen. *)
Definition stale_error : State Z :=
  {| query := code_units "Paris"; unit_ := fahrenheit; place := Some orlando;
     wx := Some sunny; loading := false; error := "Weather fetch failed" |}.

End Samples.

(** * Properties *)

(** ** [trim] and blank queries *)

Lemma js_not_true (q : jsstring) : js_not q = true ↔ q = [].
Proof. destruct q; simpl; split; congruence. Qed.

Lemma trimStart_nil (q : jsstring) :
  trimStart q = [] ↔ forallb is_white_space q = true.
Proof.
  induction q as [|c q IH]; simpl; [done|].
  destruct (is_white_space c); simpl; [exact IH|].
  split; discriminate.
Qed.

Lemma trimStart_head (q : jsstring) c r :
  trimStart q = c :: r → is_white_space c = false.
Proof.
  induction q as [|d q IH]; simpl; [discriminate|].
  destruct (is_white_space d) eqn:Hd; [exact IH|].
  intros [= -> _]. exact Hd.
Qed.

Lemma trimStart_snoc (l : jsstring) c :
  is_white_space c = false → trimStart (l ++ [c]) ≠ [].
Proof.
  intros Hc. induction l as [|d l IH]; simpl.
  - rewrite Hc. discriminate.
  - destruct (is_white_space d); [exact IH | discriminate].
Qed.

(** [!query.trim()] holds exactly for the empty and the whitespace-only
    strings. *)
Lemma trim_blank (q : jsstring) :
  js_not (trim q) = true ↔ forallb is_white_space q = true.
Proof.
  rewrite js_not_true, <- trimStart_nil. unfold trim, trimEnd.
  destruct (trimStart q) as [|c r] eqn:Hq; [done|].
  split; [|discriminate].
  intros Hrev. exfalso.
  apply trimStart_head in Hq.
  apply (f_equal (@rev N)) in Hrev. rewrite rev_involutive in Hrev.
  simpl in Hrev. by apply (trimStart_snoc (rev r) c).
Qed.

(** ** What each handler records *)

Section Runs.

Context {number : Type}.
Implicit Types (W : World number) (s : State number).

Lemma eff_eta {A} (m : Eff number A) : m = (m.1, m.2).
Proof. by destruct m. Qed.

(** [geocodeCity] issues its one request whatever comes back, unless the
    name cannot be encoded: then it issues none. *)
Lemma geocodeCity_events W n :
  (geocodeCity W n).1 = if isWellFormed n then [Fetch (GeocodeReq n)] else [].
Proof.
  unfold geocodeCity, fetch_geocoding, encodeURIComponent.
  destruct (isWellFormed n); [|reflexivity]. simpl.
  destruct (geocoding W n) as [[[] [[[[|r l]|]]|e]]|e]; reflexivity.
Qed.

Lemma fetchWeather_events W u la lo :
  (fetchWeather W u la lo).1 = [Fetch (ForecastReq la lo (unit_param u) (speedUnit u))].
Proof.
  unfold fetchWeather, fetch_forecast.
  destruct (forecast W la lo (unit_param u) (speedUnit u)) as [[[] [w|e]]|e];
    reflexivity.
Qed.

(** The message a failed [geocodeCity] carries, by cause. *)
Lemma geocodeCity_outcome W n :
  (geocodeCity W n).2 =
    if isWellFormed n then
      match geocoding W n with
      | Thrown e => Thrown e
      | Returned res =>
          if ok res then
            match json res with
            | Thrown e => Thrown e
            | Returned data =>
                match results data with
                | Some (r :: _) =>
                    Returned {| name := r_name r; country := r_country_code r;
                                lat := r_latitude r; lon := r_longitude r |}
                | _ => Thrown {| message := "No results for that city" |}
                end
            end
          else Thrown {| message := "Geocoding failed" |}
      end
    else Thrown {| message := "URI malformed" |}.
Proof.
  unfold geocodeCity, fetch_geocoding, encodeURIComponent.
  destruct (isWellFormed n); [|reflexivity]. simpl.
  destruct (geocoding W n) as [[[] [[[[|r l]|]]|e]]|e]; reflexivity.
Qed.

(** A place comes back only for a name that could be encoded. *)
Lemma geocodeCity_returned W n p :
  (geocodeCity W n).2 = Returned p → isWellFormed n = true.
Proof.
  rewrite geocodeCity_outcome. by destruct (isWellFormed n).
Qed.

Lemma fetchWeather_outcome W u la lo :
  (fetchWeather W u la lo).2 =
    match forecast W la lo (unit_param u) (speedUnit u) with
    | Thrown e => Thrown e
    | Returned res =>
        if ok res then json res
        else Thrown {| message := "Weather fetch failed" |}
    end.
Proof.
  unfold fetchWeather, fetch_forecast.
  destruct (forecast W la lo (unit_param u) (speedUnit u)) as [[[] [w|e]]|e];
    reflexivity.
Qed.

(** The four ways [searchCity] can go. *)
Lemma searchCity_blank W s :
  js_not (trim (query s)) = true → searchCity W s = ([SetError ""], Returned ()).
Proof. unfold searchCity. by intros ->. Qed.

Lemma searchCity_geocode_throws W s e :
  js_not (trim (query s)) = false →
  (geocodeCity W (trim (query s))).2 = Thrown e →
  searchCity W s =
    (SetError "" :: SetLoading true
       :: (if isWellFormed (trim (query s))
           then [Fetch (GeocodeReq (trim (query s)))] else [])
       ++ [SetError (or_else (message e) "Something went wrong");
           SetLoading false],
     Returned ()).
Proof.
  intros Hq He. unfold searchCity. rewrite Hq.
  rewrite (eff_eta (geocodeCity _ _)), geocodeCity_events, He.
  by destruct (isWellFormed (trim (query s))).
Qed.

Lemma searchCity_forecast_throws W s p e :
  js_not (trim (query s)) = false →
  (geocodeCity W (trim (query s))).2 = Returned p →
  (fetchWeather W (unit_ s) (lat p) (lon p)).2 = Thrown e →
  searchCity W s =
    ([SetError ""; SetLoading true; Fetch (GeocodeReq (trim (query s)));
      SetPlace p;
      Fetch (ForecastReq (lat p) (lon p) (unit_param (unit_ s)) (speedUnit (unit_ s)));
      SetError (or_else (message e) "Something went wrong"); SetLoading false],
     Returned ()).
Proof.
  intros Hq Hp He. unfold searchCity. rewrite Hq.
  rewrite (eff_eta (geocodeCity _ _)), geocodeCity_events, Hp.
  rewrite (geocodeCity_returned _ _ _ Hp). cbn -[fetchWeather].
  rewrite (eff_eta (fetchWeather _ _ _ _)), fetchWeather_events, He. reflexivity.
Qed.

Lemma searchCity_success W s p w :
  js_not (trim (query s)) = false →
  (geocodeCity W (trim (query s))).2 = Returned p →
  (fetchWeather W (unit_ s) (lat p) (lon p)).2 = Returned w →
  searchCity W s =
    ([SetError ""; SetLoading true; Fetch (GeocodeReq (trim (query s)));
      SetPlace p;
      Fetch (ForecastReq (lat p) (lon p) (unit_param (unit_ s)) (speedUnit (unit_ s)));
      SetWx w; SetLoading false],
     Returned ()).
Proof.
  intros Hq Hp Hw. unfold searchCity. rewrite Hq.
  rewrite (eff_eta (geocodeCity _ _)), geocodeCity_events, Hp.
  rewrite (geocodeCity_returned _ _ _ Hp). cbn -[fetchWeather].
  rewrite (eff_eta (fetchWeather _ _ _ _)), fetchWeather_events, Hw. reflexivity.
Qed.

End Runs.

Import Samples.

(** ** [searchCity] *)

Section SearchCity.

Context {number : Type}.
Implicit Types (W : World number) (s : State number).

Lemma js_not_false (q : jsstring) : q ≠ [] → js_not q = false.
Proof. by destruct q. Qed.

(** A failed lookup of the city leaves [place] and [wx] alone. *)
Lemma searchCity_geocode_failure W s e :
  trim (query s) ≠ [] →
  (geocodeCity W (trim (query s))).2 = Thrown e →
  state_after (searchCity W s) s =
    {| query := query s; unit_ := unit_ s; place := place s; wx := wx s;
       loading := false;
       error := or_else (message e) "Something went wrong" |}.
Proof.
  intros Hq He.
  rewrite (searchCity_geocode_throws W s e) by auto using js_not_false.
  by destruct (isWellFormed (trim (query s))).
Qed.

(** A failed forecast request comes after [setPlace(p)]. *)
Lemma searchCity_forecast_failure W s p e :
  trim (query s) ≠ [] →
  (geocodeCity W (trim (query s))).2 = Returned p →
  (fetchWeather W (unit_ s) (lat p) (lon p)).2 = Thrown e →
  state_after (searchCity W s) s =
    {| query := query s; unit_ := unit_ s; place := Some p; wx := wx s;
       loading := false;
       error := or_else (message e) "Something went wrong" |}.
Proof.
  intros Hq Hp He.
  by rewrite (searchCity_forecast_throws W s p e) by auto using js_not_false.
Qed.

(** The geocoding request of a search: it is for the trimmed query, which
    is then not blank and has no unpaired surrogate. *)
Lemma searchCity_geocode_request W s n :
  GeocodeReq n ∈ requests (searchCity W s) →
  n = trim (query s) ∧ trim (query s) ≠ []
  ∧ isWellFormed (trim (query s)) = true.
Proof.
  intros Hn. destruct (js_not (trim (query s))) eqn:Hq.
  { rewrite searchCity_blank in Hn by done. by apply elem_of_nil in Hn. }
  assert (trim (query s) ≠ []) as Hne by (by destruct (trim (query s))).
  destruct (geocodeCity W (trim (query s))).2 as [p|e] eqn:Hg.
  - pose proof (geocodeCity_returned _ _ _ Hg) as Hwf.
    destruct (fetchWeather W (unit_ s) (lat p) (lon p)).2 as [w|e] eqn:Hf.
    + rewrite (searchCity_success W s p w) in Hn by done. cbn in Hn.
      apply elem_of_cons in Hn as [[= ->]|Hn]; [done|].
      apply elem_of_cons in Hn as [[=]|Hn]. by apply elem_of_nil in Hn.
    + rewrite (searchCity_forecast_throws W s p e) in Hn by done. cbn in Hn.
      apply elem_of_cons in Hn as [[= ->]|Hn]; [done|].
      apply elem_of_cons in Hn as [[=]|Hn]. by apply elem_of_nil in Hn.
  - rewrite (searchCity_geocode_throws W s e) in Hn by done.
    destruct (isWellFormed (trim (query s))); cbn in Hn.
    + apply elem_of_cons in Hn as [[= ->]|Hn]; [done|].
      by apply elem_of_nil in Hn.
    + by apply elem_of_nil in Hn.
Qed.

(** C2, as amended: [searchCity] does not look at [loading].  Started while
    [loading] is true with a query that is not blank, it records the same
    events and ends in the same state as when started with [loading] false,
    and that state has [loading] false.  When the trimmed query can be
    encoded into the URL (it has no unpaired surrogate), the first request
    it issues is the geocoding request for the trimmed query. *)
Theorem searchCity_runs_while_loading W s :
  loading s = true →
  trim (query s) ≠ [] →
  (isWellFormed (trim (query s)) = true →
   ∃ rest, requests (searchCity W s) = GeocodeReq (trim (query s)) :: rest)
  ∧ searchCity W s = searchCity W (update (SetLoading false) s)
  ∧ state_after (searchCity W s) s =
      state_after (searchCity W (update (SetLoading false) s))
                  (update (SetLoading false) s)
  ∧ loading (state_after (searchCity W s) s) = false.
Proof.
  intros _ Hq%js_not_false.
  change (searchCity W (update (SetLoading false) s)) with (searchCity W s).
  destruct (geocodeCity W (trim (query s))).2 as [p|e] eqn:Hg.
  - destruct (fetchWeather W (unit_ s) (lat p) (lon p)).2 as [w|e] eqn:Hf.
    + rewrite (searchCity_success W s p w) by done. eauto 10.
    + rewrite (searchCity_forecast_throws W s p e) by done. eauto 10.
  - rewrite (searchCity_geocode_throws W s e) by done.
    destruct (isWellFormed (trim (query s))); [by eauto 10|].
    by repeat split.
Qed.

(** C3, as amended: with a query that is empty or all whitespace,
    [searchCity] issues no request and leaves [query], [unit], [place],
    [wx] and [loading] as they were; [error] becomes the empty string. *)
Theorem searchCity_blank_query W s :
  forallb is_white_space (query s) = true →
  requests (searchCity W s) = []
  ∧ state_after (searchCity W s) s =
      {| query := query s; unit_ := unit_ s; place := place s; wx := wx s;
         loading := loading s; error := "" |}.
Proof.
  intros Hq%trim_blank. by rewrite searchCity_blank.
Qed.

(** C6: when the geocoding service answers a request of the search
    successfully with an empty [results] list, [geocodeCity] throws the error
    whose message is "No results for that city"; [searchCity] shows that
    message and ends with [loading] false. *)
Theorem searchCity_no_results W s n body :
  GeocodeReq n ∈ requests (searchCity W s) →
  geocoding W n = Returned {| ok := true; json := Returned body |} →
  results body = Some [] →
  (geocodeCity W n).2 = Thrown {| message := "No results for that city" |}
  ∧ error (state_after (searchCity W s) s) = "No results for that city"
  ∧ loading (state_after (searchCity W s) s) = false.
Proof.
  intros (-> & Hq & Hwf)%searchCity_geocode_request HW Hbody.
  assert ((geocodeCity W (trim (query s))).2
          = Thrown {| message := "No results for that city" |}) as Hg.
  { rewrite geocodeCity_outcome, Hwf, HW. simpl. by rewrite Hbody. }
  split; [exact Hg|].
  by rewrite (searchCity_geocode_failure W s _ Hq Hg).
Qed.

End SearchCity.

(** ** [useMyLocation] and the unit toggle *)

Section OtherHandlers.

Context {number : Type}.
Implicit Types (W : World number) (s : State number).

Lemma useMyLocation_forecast_throws W s la lo e :
  geolocation W = Some (Returned (la, lo)) →
  (fetchWeather W (unit_ s) la lo).2 = Thrown e →
  useMyLocation W s =
    ([SetError ""; SetLoading true; GetCurrentPosition;
      Fetch (ForecastReq la lo (unit_param (unit_ s)) (speedUnit (unit_ s)));
      SetError (or_else (message e) "Failed to fetch weather"); SetLoading false],
     Returned ()).
Proof.
  intros HW He. unfold useMyLocation. rewrite HW. cbn -[fetchWeather].
  rewrite (eff_eta (fetchWeather _ _ _ _)), fetchWeather_events, He. reflexivity.
Qed.

(** On success the forecast is stored first and the place after it. *)
Lemma useMyLocation_success W s la lo w :
  geolocation W = Some (Returned (la, lo)) →
  (fetchWeather W (unit_ s) la lo).2 = Returned w →
  useMyLocation W s =
    ([SetError ""; SetLoading true; GetCurrentPosition;
      Fetch (ForecastReq la lo (unit_param (unit_ s)) (speedUnit (unit_ s)));
      SetWx w;
      SetPlace {| name := "My location"; country := ""; lat := la; lon := lo |};
      SetLoading false],
     Returned ()).
Proof.
  intros HW Hw. unfold useMyLocation. rewrite HW. cbn -[fetchWeather].
  rewrite (eff_eta (fetchWeather _ _ _ _)), fetchWeather_events, Hw. reflexivity.
Qed.

(** C10: in [useMyLocation], when the device coordinates are obtained and
    the forecast request then fails, [place] and [wx] are what they were.
    In [searchCity] the same failure comes after [setPlace]: [place] is the
    geocoded place, [wx] is what it was. *)
Theorem useMyLocation_forecast_failure W s la lo e :
  geolocation W = Some (Returned (la, lo)) →
  (fetchWeather W (unit_ s) la lo).2 = Thrown e →
  place (state_after (useMyLocation W s) s) = place s
  ∧ wx (state_after (useMyLocation W s) s) = wx s
  ∧ (∀ p e',
       trim (query s) ≠ [] →
       (geocodeCity W (trim (query s))).2 = Returned p →
       (fetchWeather W (unit_ s) (lat p) (lon p)).2 = Thrown e' →
       place (state_after (searchCity W s) s) = Some p
       ∧ wx (state_after (searchCity W s) s) = wx s).
Proof.
  intros HW He.
  rewrite (useMyLocation_forecast_throws W s la lo e HW He).
  repeat split; try reflexivity.
  all: by rewrite (searchCity_forecast_failure W s p e').
Qed.

Lemma unit_effect_no_place W s :
  place s = None → unit_effect W s = ([], Returned ()).
Proof. unfold unit_effect. by intros ->. Qed.

Lemma unit_effect_requests W s p :
  place s = Some p →
  requests (unit_effect W s) =
    [ForecastReq (lat p) (lon p) (unit_param (unit_ s)) (speedUnit (unit_ s))].
Proof.
  intros Hp. unfold unit_effect. rewrite Hp. cbn -[fetchWeather].
  rewrite (eff_eta (fetchWeather _ _ _ _)), fetchWeather_events.
  by destruct (fetchWeather W (unit_ s) (lat p) (lon p)).2.
Qed.

(** C4: a change of unit with no place resolved only sets [unit] and issues
    no request.  With a place resolved it issues exactly one request, the
    forecast request for the coordinates of that place with
    [temperature_unit=celsius&wind_speed_unit=kmh] or
    [temperature_unit=fahrenheit&wind_speed_unit=mph] according to the new
    unit, and no geocoding request. *)
Theorem changeUnit_refetch W u s :
  u ≠ unit_ s →
  (place s = None →
     requests (changeUnit W u s) = []
     ∧ state_after (changeUnit W u s) s = update (SetUnit u) s)
  ∧ (∀ p, place s = Some p →
       requests (changeUnit W u s) =
         [match u with
          | celsius => ForecastReq (lat p) (lon p) "celsius" "kmh"
          | fahrenheit => ForecastReq (lat p) (lon p) "fahrenheit" "mph"
          end]
       ∧ ∀ n, GeocodeReq n ∉ requests (changeUnit W u s)).
Proof.
  intros Hu. unfold changeUnit. rewrite decide_False by done. split.
  - intros Hp. by rewrite (unit_effect_no_place W (update (SetUnit u) s) Hp).
  - intros p Hp.
    assert (requests (emit (SetUnit u);; unit_effect W (update (SetUnit u) s)) =
              [ForecastReq (lat p) (lon p) (unit_param u) (speedUnit u)]) as ->.
    { transitivity (requests (unit_effect W (update (SetUnit u) s)));
        [|exact (unit_effect_requests W (update (SetUnit u) s) p Hp)].
      by destruct (unit_effect W (update (SetUnit u) s)) as [evs []]. }
    split; [by destruct u|].
    intros n [= ]%list_elem_of_singleton.
Qed.

End OtherHandlers.

(** ** The condition-code table *)

Lemma WMO_keys_NoDup : NoDup WMO_entries.*1.
Proof. apply (bool_decide_unpack _). by vm_compute. Qed.

(** No label and no icon of the table is the empty string, so [||] never
    replaces one. *)
Lemma WMO_entries_truthy :
  Forall (λ ke, label ke.2 ≠ "" ∧ emoji ke.2 ≠ "") WMO_entries.
Proof. apply (bool_decide_unpack _). by vm_compute. Qed.

Lemma WMO_lookup_truthy code e :
  WMO !! code = Some e → label e ≠ "" ∧ emoji e ≠ "".
Proof.
  intros He%elem_of_list_to_map_2.
  exact (proj1 (Forall_forall _ _) WMO_entries_truthy (code, e) He).
Qed.

Lemma or_else_truthy a b : a ≠ "" → or_else a b = a.
Proof. by destruct a. Qed.

Lemma table_get_Some tbl code : table_get tbl (Some code) = tbl !! code.
Proof. reflexivity. Qed.

Lemma describe_with_mapped fb code e :
  WMO !! code = Some e → describe_with fb WMO (Some code) = (label e, emoji e).
Proof.
  intros He. destruct (WMO_lookup_truthy code e He) as [Hl Hi].
  unfold describe_with, label_or, emoji_or. rewrite table_get_Some, He.
  by rewrite !or_else_truthy.
Qed.

Lemma describe_with_unmapped fb code :
  WMO !! code = None → describe_with fb WMO (Some code) = fb.
Proof.
  intros He. unfold describe_with, label_or, emoji_or.
  rewrite table_get_Some, He. by destruct fb.
Qed.

(** The codes of the table, as the source lists them. *)
Lemma WMO_unmapped code :
  WMO !! code = None ↔
  code ∉ [0; 1; 2; 3; 45; 48; 51; 53; 55; 56; 57; 61; 63; 65; 66; 67; 71; 73;
          75; 77; 80; 81; 82; 85; 86; 95; 96; 99]%Z.
Proof. unfold WMO. rewrite <- not_elem_of_list_to_map. reflexivity. Qed.

(** C5: the lookup is defined for every integer code.  A code that is a key
    of [WMO] gives the label and icon of its entry; any other code gives the
    fallback pair of the place that does the lookup. *)
Theorem describe_total (code : Z) :
  match WMO !! code with
  | Some e =>
      describe_daily WMO (Some code) = (label e, emoji e)
      ∧ describe_current WMO (Some code) = (label e, emoji e)
  | None =>
      describe_daily WMO (Some code) = ("—", "⛅")
      ∧ describe_current WMO (Some code) = ("Current conditions", "🌤️")
  end.
Proof.
  destruct (WMO !! code) as [e|] eqn:He.
  - split; by apply describe_with_mapped.
  - split; by apply describe_with_unmapped.
Qed.

Lemma table_heap_after {number} (evs : list (Event number)) (h : Heap number) :
  table (heap_after evs h) = table h.
Proof.
  unfold heap_after. revert h.
  induction evs as [|ev evs IH]; intros h; simpl; [done|].
  by rewrite IH.
Qed.

(** C8: the lookup reads the table and nothing else, and no event of the
    program writes the table.  At any two moments of the page's life, that
    is after any two sequences of events from the page as loaded, the lookup
    of a code gives the same pair; for a mapped code it is the pair of its
    entry. *)
Theorem describe_same_on_every_call {number} (evs evs' : list (Event number))
    (code : Z) :
  table (heap_after evs initial_heap) = WMO
  ∧ describe_daily (table (heap_after evs initial_heap)) (Some code)
    = describe_daily (table (heap_after evs' initial_heap)) (Some code)
  ∧ describe_current (table (heap_after evs initial_heap)) (Some code)
    = describe_current (table (heap_after evs' initial_heap)) (Some code)
  ∧ match WMO !! code with
    | Some e =>
        describe_daily (table (heap_after evs initial_heap)) (Some code)
        = (label e, emoji e)
        ∧ describe_current (table (heap_after evs initial_heap)) (Some code)
          = (label e, emoji e)
    | None => True
    end.
Proof.
  rewrite !table_heap_after.
  change (table (@initial_heap number)) with WMO.
  pose proof (describe_total code) as H.
  do 3 (split; [reflexivity|]).
  destruct (WMO !! code); [exact H | exact I].
Qed.

(** ** The initial state *)

(** C9: the component starts with an empty query, Fahrenheit, no place, no
    forecast, not loading and no error; nothing is shown as an error, and
    the effect that runs on mount does nothing. *)
Theorem initial_state_spec {number} (W : World number) :
  query (@initial_state number) = []
  ∧ unit_ (@initial_state number) = fahrenheit
  ∧ place (@initial_state number) = None
  ∧ wx (@initial_state number) = None
  ∧ loading (@initial_state number) = false
  ∧ error (@initial_state number) = ""
  ∧ error_notice (@initial_state number) = None
  ∧ unit_effect W initial_state = ([], Returned ()).
Proof. repeat split. Qed.

(** ** The forecast grid *)

Section Grid.

Context {number : Type}.
Context (Math_round : number → number) (NaN : number).
Context (formatDay : string → string).

Lemma map_indexed_total {A B} (f : A → nat → Outcome B) (g : nat → A → B) l :
  ∀ k, (∀ x i, f x i = Returned (g i x)) →
       map_indexed f k l = Returned (imap (λ j, g (k + j)) l).
Proof.
  induction l as [|x l IH]; intros k Hf; simpl; [done|].
  rewrite Hf, (IH (S k) Hf). simpl. rewrite Nat.add_0_r.
  do 2 f_equal. apply imap_ext. intros j y _. simpl. f_equal. lia.
Qed.

Lemma forecast_grid_cards tbl s w d dates codes maxs mins :
  wx s = Some w → daily w = Some d → time d = Some dates →
  weather_code d = Some codes →
  temperature_2m_max d = Some maxs → temperature_2m_min d = Some mins →
  forecast_grid Math_round NaN formatDay tbl s =
    Returned (Cards (imap (card_at Math_round NaN formatDay tbl (unit_ s) codes maxs mins) (take 5 dates))).
Proof.
  intros Hw Hd Ht Hc Hmax Hmin. unfold forecast_grid. rewrite Hw. simpl.
  rewrite Hd, Ht.
  rewrite (map_indexed_total _ (card_at Math_round NaN formatDay tbl (unit_ s) codes maxs mins)).
  - done.
  - intros date i. unfold day_card. by rewrite Hc, Hmax, Hmin.
Qed.

(** C7: with the daily arrays present and of equal length, the grid
    renders without error exactly [min 5 n] cards, [n] the number of days
    in the payload, and card [i] shows day [i]: its date, the label and icon
    of its code, its rounded maximum and minimum. *)
Theorem forecast_grid_first_five s w d dates codes maxs mins :
  wx s = Some w → daily w = Some d → time d = Some dates →
  weather_code d = Some codes →
  temperature_2m_max d = Some maxs → temperature_2m_min d = Some mins →
  length codes = length dates →
  length maxs = length dates →
  length mins = length dates →
  ∃ cards,
    forecast_grid Math_round NaN formatDay WMO s = Returned (Cards cards)
    ∧ length cards = Nat.min 5 (length dates)
    ∧ ∀ i, i < Nat.min 5 (length dates) →
        ∃ date code hi lo,
          dates !! i = Some date ∧ codes !! i = Some code
          ∧ maxs !! i = Some hi ∧ mins !! i = Some lo
          ∧ cards !! i =
              Some {| card_day := formatDay date;
                      card_emoji := (describe_daily WMO (Some code)).2;
                      card_label := (describe_daily WMO (Some code)).1;
                      card_max := Math_round hi; card_min := Math_round lo;
                      card_suffix := tempSuffix (unit_ s) |}.
Proof.
  intros Hw Hd Ht Hc Hmax Hmin Lc Lmax Lmin.
  eexists. split; [by eapply forecast_grid_cards|].
  split; [by rewrite length_imap, length_take|].
  intros i Hi.
  destruct (lookup_lt_is_Some_2 dates i) as [date Hdate]; [lia|].
  destruct (lookup_lt_is_Some_2 codes i) as [code Hcode]; [lia|].
  destruct (lookup_lt_is_Some_2 maxs i) as [hi Hhi]; [lia|].
  destruct (lookup_lt_is_Some_2 mins i) as [lo Hlo]; [lia|].
  exists date, code, hi, lo. repeat split; try done.
  rewrite list_lookup_imap, lookup_take_lt by lia.
  rewrite Hdate. simpl. unfold card_at. by rewrite Hcode, Hhi, Hlo.
Qed.

End Grid.

(** ** Concrete runs *)

(** C1 at a failing input: Orlando and its forecast are on screen, the user
    searches for Paris, geocoding succeeds and the forecast request fails.
    The handler reports the error and resets [loading], the forecast is
    still Orlando's, but [place] is now Paris. *)
Theorem searchCity_forecast_failure_replaces_place :
  place searching_paris = Some orlando
  ∧ state_after (searchCity forecast_down searching_paris) searching_paris
    = {| query := code_units "Paris"; unit_ := fahrenheit;
         place := Some paris; wx := wx searching_paris;
         loading := false; error := "Weather fetch failed" |}
  ∧ place (state_after (searchCity forecast_down searching_paris) searching_paris)
    ≠ place searching_paris.
Proof. split; [|split]; [reflexivity | reflexivity | discriminate]. Qed.

(** The view after that run: the title names Paris over Orlando's data. *)
Example title_after_failed_forecast :
  title (state_after (searchCity forecast_down searching_paris) searching_paris)
  = "Paris, FR".
Proof. reflexivity. Qed.

(** C2 fails as stated: a search submitted while [loading] is true goes to
    the network. *)
Lemma searchCity_while_loading_not_ignored :
  ¬ (loading search_in_flight = true →
     requests (searchCity all_up search_in_flight) = []
     ∧ state_after (searchCity all_up search_in_flight) search_in_flight
       = search_in_flight).
Proof. intros H. destruct (H eq_refl) as [Hreq _]. discriminate Hreq. Qed.

Lemma searchCity_runs_while_loading_witness :
  (∃ rest, requests (searchCity all_up search_in_flight)
           = GeocodeReq (trim (query search_in_flight)) :: rest)
  ∧ searchCity all_up search_in_flight
    = searchCity all_up (update (SetLoading false) search_in_flight)
  ∧ state_after (searchCity all_up search_in_flight) search_in_flight
    = state_after (searchCity all_up (update (SetLoading false) search_in_flight))
                  (update (SetLoading false) search_in_flight)
  ∧ loading (state_after (searchCity all_up search_in_flight) search_in_flight) = false.
Proof.
  destruct (searchCity_runs_while_loading all_up search_in_flight)
    as (Hreq & Hrest); [reflexivity | discriminate |].
  split; [exact (Hreq eq_refl) | exact Hrest].
Defined.

(** C3 fails as stated: a blank submit clears a displayed error. *)
Lemma searchCity_blank_clears_error :
  ¬ (requests (searchCity no_match blank_after_error) = []
     ∧ state_after (searchCity no_match blank_after_error) blank_after_error
       = blank_after_error).
Proof. intros [_ H]. discriminate H. Qed.

Lemma searchCity_blank_query_witness :
  requests (searchCity no_match blank_after_error) = []
  ∧ state_after (searchCity no_match blank_after_error) blank_after_error
    = {| query := query blank_after_error; unit_ := unit_ blank_after_error;
         place := place blank_after_error; wx := wx blank_after_error;
         loading := loading blank_after_error; error := "" |}.
Proof.
  apply (searchCity_blank_query no_match blank_after_error). reflexivity.
Defined.

Lemma changeUnit_refetch_witness :
  requests (changeUnit all_up celsius searching_paris)
  = [ForecastReq 28%Z (-81)%Z "celsius" "kmh"].
Proof.
  destruct (changeUnit_refetch all_up celsius searching_paris) as [_ H];
    [discriminate|].
  exact (proj1 (H orlando eq_refl)).
Defined.

(** Selecting the unit already in use does not run the effect. *)
Example changeUnit_same_unit :
  requests (changeUnit all_up fahrenheit searching_paris) = [].
Proof. reflexivity. Qed.

Lemma searchCity_no_results_witness :
  (geocodeCity no_match (trim (query searching_paris))).2
  = Thrown {| message := "No results for that city" |}
  ∧ error (state_after (searchCity no_match searching_paris) searching_paris)
    = "No results for that city"
  ∧ loading (state_after (searchCity no_match searching_paris) searching_paris)
    = false.
Proof.
  apply (searchCity_no_results no_match searching_paris
           (trim (query searching_paris)) {| results := Some [] |});
    [apply elem_of_cons; left; reflexivity | reflexivity | reflexivity].
Defined.

Lemma forecast_grid_first_five_witness :
  ∃ cards,
    forecast_grid (λ x, x) 0%Z (λ iso, iso) WMO three_days = Returned (Cards cards)
    ∧ length cards = 3.
Proof.
  destruct (forecast_grid_first_five (λ x, x) 0%Z (λ iso, iso) three_days
              _ (week 3) _ _ _ _
              eq_refl eq_refl eq_refl eq_refl eq_refl eq_refl
              eq_refl eq_refl eq_refl) as (cards & Hgrid & Hlen & _).
  exists cards. split; [exact Hgrid | exact Hlen].
Defined.

(** Seven days in the payload, five cards on screen, the fourth with the
    fallback pair for the unmapped code 4. *)
Example forecast_grid_of_a_week :
  forecast_grid (λ x, x) 0%Z (λ iso, iso) WMO searching_paris
  = Returned (Cards
      [ {| card_day := "2025-01-01"; card_emoji := "☀️"; card_label := "Clear";
           card_max := 70%Z; card_min := 50%Z; card_suffix := "°F" |};
        {| card_day := "2025-01-02"; card_emoji := "☁️"; card_label := "Overcast";
           card_max := 71%Z; card_min := 51%Z; card_suffix := "°F" |};
        {| card_day := "2025-01-03"; card_emoji := "🌧️"; card_label := "Light rain";
           card_max := 72%Z; card_min := 52%Z; card_suffix := "°F" |};
        {| card_day := "2025-01-04"; card_emoji := "⛅"; card_label := "—";
           card_max := 73%Z; card_min := 53%Z; card_suffix := "°F" |};
        {| card_day := "2025-01-05"; card_emoji := "⛈️"; card_label := "Thunderstorm";
           card_max := 74%Z; card_min := 54%Z; card_suffix := "°F" |} ]).
Proof. vm_compute. reflexivity. Qed.

Lemma useMyLocation_forecast_failure_witness :
  place (state_after (useMyLocation forecast_down searching_paris) searching_paris)
  = Some orlando
  ∧ wx (state_after (useMyLocation forecast_down searching_paris) searching_paris)
    = Some sunny.
Proof.
  destruct (useMyLocation_forecast_failure forecast_down searching_paris
              28%Z (-81)%Z {| message := "Weather fetch failed" |}
              eq_refl eq_refl) as (Hplace & Hwx & _).
  split; [exact Hplace | exact Hwx].
Defined.

(** * Further properties of the handlers and of the view *)

(** ** More on [trim] *)

Lemma trimStart_snoc_eq (l : jsstring) c :
  is_white_space c = false → trimStart (l ++ [c]) = trimStart l ++ [c].
Proof.
  intros Hc. induction l as [|d l IH]; simpl.
  - by rewrite Hc.
  - by destruct (is_white_space d).
Qed.

(** What is left of a query that is not blank starts and ends with a
    character that is not white space. *)
Lemma trim_ends (q : jsstring) :
  trim q ≠ [] →
  (∀ c, head (trim q) = Some c → is_white_space c = false)
  ∧ (∀ c, last (trim q) = Some c → is_white_space c = false).
Proof.
  unfold trim, trimEnd. intros Hne.
  destruct (trimStart q) as [|c r] eqn:Hq; [done|].
  pose proof (trimStart_head _ _ _ Hq) as Hc.
  simpl in *. rewrite (trimStart_snoc_eq _ _ Hc) in *.
  rewrite rev_unit in *. split.
  - by intros ? [= <-].
  - intros d Hd.
    destruct (trimStart (rev r)) as [|x t] eqn:Hr; simpl in Hd.
    + by injection Hd as <-.
    + pose proof (trimStart_head _ _ _ Hr) as Hx.
      rewrite app_comm_cons, last_snoc in Hd.
      by injection Hd as <-.
Qed.

Lemma or_else_nonempty a b : b ≠ "" → or_else a b ≠ "".
Proof. by destruct a. Qed.

(** ** Every run of every handler *)

Section Cases.

Context {number : Type}.
Implicit Types (W : World number) (s : State number).

Lemma js_not_false_inv (q : jsstring) : js_not q = false → q ≠ [].
Proof. by destruct q. Qed.

Lemma searchCity_cases W s :
  (js_not (trim (query s)) = true ∧ searchCity W s = ([SetError ""], Returned ()))
  ∨ (trim (query s) ≠ [] ∧ ∃ e,
       (geocodeCity W (trim (query s))).2 = Thrown e
       ∧ searchCity W s =
           (SetError "" :: SetLoading true
              :: (if isWellFormed (trim (query s))
                  then [Fetch (GeocodeReq (trim (query s)))] else [])
              ++ [SetError (or_else (message e) "Something went wrong");
                  SetLoading false], Returned ()))
  ∨ (trim (query s) ≠ [] ∧ ∃ p e,
       (geocodeCity W (trim (query s))).2 = Returned p
       ∧ (fetchWeather W (unit_ s) (lat p) (lon p)).2 = Thrown e
       ∧ searchCity W s =
           ([SetError ""; SetLoading true; Fetch (GeocodeReq (trim (query s)));
             SetPlace p;
             Fetch (ForecastReq (lat p) (lon p) (unit_param (unit_ s))
                                (speedUnit (unit_ s)));
             SetError (or_else (message e) "Something went wrong");
             SetLoading false], Returned ()))
  ∨ (trim (query s) ≠ [] ∧ ∃ p w,
       (geocodeCity W (trim (query s))).2 = Returned p
       ∧ (fetchWeather W (unit_ s) (lat p) (lon p)).2 = Returned w
       ∧ searchCity W s =
           ([SetError ""; SetLoading true; Fetch (GeocodeReq (trim (query s)));
             SetPlace p;
             Fetch (ForecastReq (lat p) (lon p) (unit_param (unit_ s))
                                (speedUnit (unit_ s)));
             SetWx w; SetLoading false], Returned ())).
Proof.
  destruct (js_not (trim (query s))) eqn:Hq.
  { left. split; [done|]. by apply searchCity_blank. }
  right. pose proof (js_not_false_inv _ Hq) as Hne.
  destruct (geocodeCity W (trim (query s))).2 as [p|e] eqn:Hg.
  - right.
    destruct (fetchWeather W (unit_ s) (lat p) (lon p)).2 as [w|e] eqn:Hf.
    + right. split; [done|]. exists p, w.
      by rewrite (searchCity_success W s p w).
    + left. split; [done|]. exists p, e.
      by rewrite (searchCity_forecast_throws W s p e).
  - left. split; [done|]. exists e.
    by rewrite (searchCity_geocode_throws W s e).
Qed.

Lemma useMyLocation_unsupported_run W s :
  geolocation W = None →
  useMyLocation W s =
    ([SetError ""; SetError "Geolocation not supported"], Returned ()).
Proof. intros HW. unfold useMyLocation. by rewrite HW. Qed.

Lemma useMyLocation_denied_run W s err :
  geolocation W = Some (Thrown err) →
  useMyLocation W s =
    ([SetError ""; SetLoading true; GetCurrentPosition; SetLoading false;
      SetError (or_else (message err) "Location permission denied")],
     Returned ()).
Proof. intros HW. unfold useMyLocation. by rewrite HW. Qed.

Lemma useMyLocation_cases W s :
  (geolocation W = None
   ∧ useMyLocation W s =
       ([SetError ""; SetError "Geolocation not supported"], Returned ()))
  ∨ (∃ err, geolocation W = Some (Thrown err)
       ∧ useMyLocation W s =
           ([SetError ""; SetLoading true; GetCurrentPosition; SetLoading false;
             SetError (or_else (message err) "Location permission denied")],
            Returned ()))
  ∨ (∃ la lo e, geolocation W = Some (Returned (la, lo))
       ∧ (fetchWeather W (unit_ s) la lo).2 = Thrown e
       ∧ useMyLocation W s =
           ([SetError ""; SetLoading true; GetCurrentPosition;
             Fetch (ForecastReq la lo (unit_param (unit_ s)) (speedUnit (unit_ s)));
             SetError (or_else (message e) "Failed to fetch weather");
             SetLoading false], Returned ()))
  ∨ (∃ la lo w, geolocation W = Some (Returned (la, lo))
       ∧ (fetchWeather W (unit_ s) la lo).2 = Returned w
       ∧ useMyLocation W s =
           ([SetError ""; SetLoading true; GetCurrentPosition;
             Fetch (ForecastReq la lo (unit_param (unit_ s)) (speedUnit (unit_ s)));
             SetWx w;
             SetPlace {| name := "My location"; country := ""; lat := la; lon := lo |};
             SetLoading false], Returned ())).
Proof.
  destruct (geolocation W) as [[[la lo]|err]|] eqn:HW.
  - right. right.
    destruct (fetchWeather W (unit_ s) la lo).2 as [w|e] eqn:Hf.
    + right. exists la, lo, w. by rewrite (useMyLocation_success W s la lo w).
    + left. exists la, lo, e.
      by rewrite (useMyLocation_forecast_throws W s la lo e).
  - right. left. exists err. by rewrite (useMyLocation_denied_run W s err).
  - left. by rewrite (useMyLocation_unsupported_run W s).
Qed.

Lemma unit_effect_returns W s p w :
  place s = Some p →
  (fetchWeather W (unit_ s) (lat p) (lon p)).2 = Returned w →
  unit_effect W s =
    ([SetLoading true;
      Fetch (ForecastReq (lat p) (lon p) (unit_param (unit_ s)) (speedUnit (unit_ s)));
      SetWx w; SetLoading false], Returned ()).
Proof.
  intros Hp Hw. unfold unit_effect. rewrite Hp. cbn -[fetchWeather].
  rewrite (eff_eta (fetchWeather _ _ _ _)), fetchWeather_events, Hw. reflexivity.
Qed.

Lemma unit_effect_throws W s p e :
  place s = Some p →
  (fetchWeather W (unit_ s) (lat p) (lon p)).2 = Thrown e →
  unit_effect W s =
    ([SetLoading true;
      Fetch (ForecastReq (lat p) (lon p) (unit_param (unit_ s)) (speedUnit (unit_ s)));
      SetError (or_else (message e) "Failed to refresh weather");
      SetLoading false], Returned ()).
Proof.
  intros Hp He. unfold unit_effect. rewrite Hp. cbn -[fetchWeather].
  rewrite (eff_eta (fetchWeather _ _ _ _)), fetchWeather_events, He. reflexivity.
Qed.

Lemma changeUnit_cases W u s :
  (u = unit_ s ∧ changeUnit W u s = ([SetUnit u], Returned ()))
  ∨ (u ≠ unit_ s ∧ place s = None
     ∧ changeUnit W u s = ([SetUnit u], Returned ()))
  ∨ (u ≠ unit_ s ∧ ∃ p w, place s = Some p
       ∧ (fetchWeather W u (lat p) (lon p)).2 = Returned w
       ∧ changeUnit W u s =
           ([SetUnit u; SetLoading true;
             Fetch (ForecastReq (lat p) (lon p) (unit_param u) (speedUnit u));
             SetWx w; SetLoading false], Returned ()))
  ∨ (u ≠ unit_ s ∧ ∃ p e, place s = Some p
       ∧ (fetchWeather W u (lat p) (lon p)).2 = Thrown e
       ∧ changeUnit W u s =
           ([SetUnit u; SetLoading true;
             Fetch (ForecastReq (lat p) (lon p) (unit_param u) (speedUnit u));
             SetError (or_else (message e) "Failed to refresh weather");
             SetLoading false], Returned ())).
Proof.
  unfold changeUnit. destruct (decide (u = unit_ s)) as [Hu|Hu].
  { left. by split. }
  right. destruct (place s) as [p|] eqn:Hp.
  - right.
    destruct (fetchWeather W u (lat p) (lon p)).2 as [w|e] eqn:Hf.
    + left. split; [done|]. exists p, w. repeat split; try done.
      by rewrite (unit_effect_returns W (update (SetUnit u) s) p w).
    + right. split; [done|]. exists p, e. repeat split; try done.
      by rewrite (unit_effect_throws W (update (SetUnit u) s) p e).
  - left. repeat split; try done.
    by rewrite (unit_effect_no_place W (update (SetUnit u) s)).
Qed.

End Cases.

(** ** [searchCity], end to end *)

Section SearchProperties.

Context {number : Type}.
Implicit Types (W : World number) (s : State number).

(** X1: a search that succeeds.  The trimmed query is not blank and can be
    encoded into the URL.  The geocoding service is asked once for it; of
    its results only the first is used; the forecast is asked once for that
    result's coordinates in the current unit; the state ends with that
    place, that forecast, no error and [loading] false. *)
Theorem searchCity_end_to_end W s body r rest w :
  trim (query s) ≠ [] →
  isWellFormed (trim (query s)) = true →
  geocoding W (trim (query s)) = Returned {| ok := true; json := Returned body |} →
  results body = Some (r :: rest) →
  forecast W (r_latitude r) (r_longitude r) (unit_param (unit_ s)) (speedUnit (unit_ s))
    = Returned {| ok := true; json := Returned w |} →
  requests (searchCity W s) =
    [GeocodeReq (trim (query s));
     ForecastReq (r_latitude r) (r_longitude r) (unit_param (unit_ s))
                 (speedUnit (unit_ s))]
  ∧ state_after (searchCity W s) s =
      {| query := query s; unit_ := unit_ s;
         place := Some {| name := r_name r; country := r_country_code r;
                          lat := r_latitude r; lon := r_longitude r |};
         wx := Some w; loading := false; error := "" |}.
Proof.
  intros Hq Hwf HW Hbody Hf.
  set (p := {| name := r_name r; country := r_country_code r;
               lat := r_latitude r; lon := r_longitude r |}).
  assert ((geocodeCity W (trim (query s))).2 = Returned p) as Hg.
  { rewrite geocodeCity_outcome, Hwf, HW. simpl. by rewrite Hbody. }
  assert ((fetchWeather W (unit_ s) (lat p) (lon p)).2 = Returned w) as Hw.
  { rewrite fetchWeather_outcome. simpl. by rewrite Hf. }
  by rewrite (searchCity_success W s p w) by auto using js_not_false.
Qed.

(** X2: a search with a query that is not blank never throws to its caller,
    ends with [loading] false, and ends with no error exactly when both the
    geocoding and the forecast step returned. *)
Theorem searchCity_error_iff_failure W s :
  trim (query s) ≠ [] →
  (searchCity W s).2 = Returned ()
  ∧ loading (state_after (searchCity W s) s) = false
  ∧ (error (state_after (searchCity W s) s) = "" ↔
     ∃ p w, (geocodeCity W (trim (query s))).2 = Returned p
            ∧ (fetchWeather W (unit_ s) (lat p) (lon p)).2 = Returned w).
Proof.
  intros Hq.
  destruct (searchCity_cases W s)
    as [(Hb & _)|[(_ & e & Hg & ->)|[(_ & p & e & Hg & Hf & ->)
                                     |(_ & p & w & Hg & Hf & ->)]]].
  - apply js_not_true in Hb. done.
  - destruct (isWellFormed (trim (query s)));
      (do 2 (split; [reflexivity|])); split.
    + intros He. by apply or_else_nonempty in He.
    + intros (p & w & Hp & _). congruence.
    + intros He. by apply or_else_nonempty in He.
    + intros (p & w & Hp & _). congruence.
  - do 2 (split; [reflexivity|]). split.
    + intros He. by apply or_else_nonempty in He.
    + intros (p' & w & Hp & Hw). congruence.
  - do 2 (split; [reflexivity|]). split; [|done]. eauto.
Qed.

(** X3: the name sent to the geocoding service is the trimmed query: it is
    not empty and neither starts nor ends with white space. *)
Theorem searchCity_geocodes_trimmed_name W s n :
  GeocodeReq n ∈ requests (searchCity W s) →
  n = trim (query s) ∧ n ≠ []
  ∧ (∀ c, head n = Some c → is_white_space c = false)
  ∧ (∀ c, last n = Some c → is_white_space c = false).
Proof.
  intros Hn.
  apply searchCity_geocode_request in Hn as (-> & Hq & _).
  split; [done|]. split; [done|]. by apply trim_ends.
Qed.

(** X4: when the trimmed query is not blank and can be encoded, and the
    geocoding service answers with a status that is not ok, the body is not
    read, the forecast service is not asked, the message is "Geocoding
    failed", and [place] and [wx] are what they were. *)
Theorem searchCity_geocoding_status W s body :
  trim (query s) ≠ [] →
  isWellFormed (trim (query s)) = true →
  geocoding W (trim (query s)) = Returned {| ok := false; json := body |} →
  requests (searchCity W s) = [GeocodeReq (trim (query s))]
  ∧ state_after (searchCity W s) s =
      {| query := query s; unit_ := unit_ s; place := place s; wx := wx s;
         loading := false; error := "Geocoding failed" |}.
Proof.
  intros Hq Hwf HW.
  assert ((geocodeCity W (trim (query s))).2
          = Thrown {| message := "Geocoding failed" |}) as Hg.
  { by rewrite geocodeCity_outcome, Hwf, HW. }
  by rewrite (searchCity_geocode_throws W s _ (js_not_false _ Hq) Hg), Hwf.
Qed.


End SearchProperties.

(** ** [useMyLocation], end to end *)

Section LocationProperties.

Context {number : Type}.
Implicit Types (W : World number) (s : State number).

(** X5: without [navigator.geolocation] the handler only replaces the error:
    no request, no prompt, and [loading], [place] and [wx] as they were. *)
Theorem useMyLocation_unsupported W s :
  geolocation W = None →
  (useMyLocation W s).1 = [SetError ""; SetError "Geolocation not supported"]
  ∧ state_after (useMyLocation W s) s =
      {| query := query s; unit_ := unit_ s; place := place s; wx := wx s;
         loading := loading s; error := "Geolocation not supported" |}.
Proof. intros HW. by rewrite (useMyLocation_unsupported_run W s HW). Qed.

(** X6: when the position request fails, no network request is issued,
    [loading] ends false, [place] and [wx] are what they were, and the error
    shown is the failure's message, or "Location permission denied" when
    that message is empty. *)
Theorem useMyLocation_denied W s err :
  geolocation W = Some (Thrown err) →
  requests (useMyLocation W s) = []
  ∧ state_after (useMyLocation W s) s =
      {| query := query s; unit_ := unit_ s; place := place s; wx := wx s;
         loading := false;
         error := or_else (message err) "Location permission denied" |}
  ∧ error (state_after (useMyLocation W s) s) ≠ "".
Proof.
  intros HW. rewrite (useMyLocation_denied_run W s err HW).
  do 2 (split; [reflexivity|]). by apply or_else_nonempty.
Qed.

(** X7: a location lookup that succeeds asks the forecast service once, for
    the device coordinates in the current unit, and ends with that forecast
    and the place named "My location" at those coordinates, no error and
    [loading] false. *)
Theorem useMyLocation_end_to_end W s la lo w :
  geolocation W = Some (Returned (la, lo)) →
  forecast W la lo (unit_param (unit_ s)) (speedUnit (unit_ s))
    = Returned {| ok := true; json := Returned w |} →
  requests (useMyLocation W s) =
    [ForecastReq la lo (unit_param (unit_ s)) (speedUnit (unit_ s))]
  ∧ state_after (useMyLocation W s) s =
      {| query := query s; unit_ := unit_ s;
         place := Some {| name := "My location"; country := "";
                          lat := la; lon := lo |};
         wx := Some w; loading := false; error := "" |}.
Proof.
  intros HW Hf.
  assert ((fetchWeather W (unit_ s) la lo).2 = Returned w) as Hw.
  { rewrite fetchWeather_outcome. by rewrite Hf. }
  by rewrite (useMyLocation_success W s la lo w HW Hw).
Qed.

(** X8: whatever the world does, [useMyLocation] issues at most one request
    and never one to the geocoding service. *)
Theorem useMyLocation_never_geocodes W s :
  (length (requests (useMyLocation W s)) ≤ 1)%nat
  ∧ ∀ n, GeocodeReq n ∉ requests (useMyLocation W s).
Proof.
  destruct (useMyLocation_cases W s)
    as [(_ & ->)|[(err & _ & ->)|[(la & lo & e & _ & _ & ->)
                                  |(la & lo & w & _ & _ & ->)]]];
    cbn; (split; [lia|]); intros n Hn;
    repeat (apply elem_of_cons in Hn as [Hn|Hn]; [discriminate Hn|]);
    by apply elem_of_nil in Hn.
Qed.

End LocationProperties.

(** ** The unit toggle, end to end *)

Section UnitProperties.

Context {number : Type}.
Implicit Types (W : World number) (s : State number).

(** X9: a change of unit that refreshes the forecast replaces [wx] and sets
    [unit]; it keeps [place] and [query], and it does not clear [error]: a
    message left by an earlier failure is still there. *)
Theorem changeUnit_success_keeps_error W u s p w :
  u ≠ unit_ s →
  place s = Some p →
  forecast W (lat p) (lon p) (unit_param u) (speedUnit u)
    = Returned {| ok := true; json := Returned w |} →
  state_after (changeUnit W u s) s =
    {| query := query s; unit_ := u; place := Some p; wx := Some w;
       loading := false; error := error s |}.
Proof.
  intros Hu Hp Hf.
  destruct (changeUnit_cases W u s)
    as [(? & _)|[(_ & Hn & _)|[(_ & p' & w' & Hp' & Hw & ->)
                               |(_ & p' & e & Hp' & He & _)]]];
    try congruence.
  - assert (p' = p) as -> by congruence.
    rewrite fetchWeather_outcome, Hf in Hw. simpl in Hw.
    injection Hw as ->. by rewrite <- Hp.
  - assert (p' = p) as -> by congruence.
    rewrite fetchWeather_outcome, Hf in He. discriminate He.
Qed.

(** X10: when the refresh fails, the unit is switched all the same while
    [wx] is still the forecast fetched in the old unit; the error is the
    failure's message, or "Failed to refresh weather" when that is empty. *)
Theorem changeUnit_failure_switches_unit W u s p e :
  u ≠ unit_ s →
  place s = Some p →
  (fetchWeather W u (lat p) (lon p)).2 = Thrown e →
  state_after (changeUnit W u s) s =
    {| query := query s; unit_ := u; place := Some p; wx := wx s;
       loading := false;
       error := or_else (message e) "Failed to refresh weather" |}
  ∧ requests (changeUnit W u s) =
      [ForecastReq (lat p) (lon p) (unit_param u) (speedUnit u)].
Proof.
  intros Hu Hp He.
  destruct (changeUnit_cases W u s)
    as [(? & _)|[(_ & Hn & _)|[(_ & p' & w' & Hp' & Hw & _)
                               |(_ & p' & e' & Hp' & He' & ->)]]];
    try congruence.
  assert (p' = p) as -> by congruence.
  assert (e' = e) as -> by congruence.
  by rewrite <- Hp.
Qed.

(** X11: selecting the unit already in use changes nothing and asks nothing,
    place or no place. *)
Theorem changeUnit_same_unit_noop W s :
  requests (changeUnit W (unit_ s) s) = []
  ∧ state_after (changeUnit W (unit_ s) s) s = s.
Proof.
  unfold changeUnit. rewrite decide_True by done. split; [done|].
  by destruct s.
Qed.

End UnitProperties.

(** ** What holds of all three handlers *)

Section AllHandlers.

Context {number : Type}.
Implicit Types (W : World number) (s : State number).

Local Ltac search_runs W s :=
  destruct (searchCity_cases W s)
    as [(_ & ->)|[(_ & ? & _ & ->)|[(_ & ? & ? & _ & _ & ->)
                                    |(_ & ? & ? & _ & _ & ->)]]];
  try match goal with
      | |- context [isWellFormed ?q] => destruct (isWellFormed q)
      end.

Local Ltac location_runs W s :=
  destruct (useMyLocation_cases W s)
    as [(_ & ->)|[(? & _ & ->)|[(? & ? & ? & _ & _ & ->)
                                |(? & ? & ? & _ & _ & ->)]]].

Local Ltac unit_runs W u s :=
  destruct (changeUnit_cases W u s)
    as [(_ & ->)|[(_ & _ & ->)|[(_ & ? & ? & _ & _ & ->)
                                |(_ & ? & ? & _ & _ & ->)]]].

(** X12: every forecast request, from whichever handler, carries a matching
    pair of units: fahrenheit with mph, or celsius with kmh. *)
Theorem forecast_requests_units_agree W u s la lo tu su :
  ForecastReq la lo tu su
    ∈ requests (searchCity W s) ++ requests (useMyLocation W s)
      ++ requests (changeUnit W u s) →
  (tu = "fahrenheit" ∧ su = "mph") ∨ (tu = "celsius" ∧ su = "kmh").
Proof.
  assert (∀ v, ForecastReq la lo tu su
               ∈ [ForecastReq la lo (unit_param v) (speedUnit v)] →
               (tu = "fahrenheit" ∧ su = "mph") ∨ (tu = "celsius" ∧ su = "kmh"))
    as Hpair.
  { intros v [= -> ->]%list_elem_of_singleton. destruct v; auto. }
  intros [H|[H|H]%elem_of_app]%elem_of_app; revert H.
  - search_runs W s; cbn; intros H;
      repeat (apply elem_of_cons in H as [H|H]; [try discriminate H|]);
      try (by apply elem_of_nil in H);
      injection H as -> -> -> ->; destruct (unit_ s); auto.
  - location_runs W s; cbn; intros H;
      repeat (apply elem_of_cons in H as [H|H]; [try discriminate H|]);
      try (by apply elem_of_nil in H);
      injection H as -> -> -> ->; destruct (unit_ s); auto.
  - unit_runs W u s; cbn; intros H;
      repeat (apply elem_of_cons in H as [H|H]; [try discriminate H|]);
      try (by apply elem_of_nil in H);
      injection H as -> -> -> ->; destruct u; auto.
Qed.

(** X13: no handler writes [query]; [searchCity] and [useMyLocation] do not
    write [unit] either, and a change of unit leaves [place] alone. *)
Theorem handlers_frame W u s :
  query (state_after (searchCity W s) s) = query s
  ∧ unit_ (state_after (searchCity W s) s) = unit_ s
  ∧ query (state_after (useMyLocation W s) s) = query s
  ∧ unit_ (state_after (useMyLocation W s) s) = unit_ s
  ∧ query (state_after (changeUnit W u s) s) = query s
  ∧ place (state_after (changeUnit W u s) s) = place s
  ∧ unit_ (state_after (changeUnit W u s) s) = u.
Proof.
  repeat split.
  - search_runs W s; reflexivity.
  - search_runs W s; reflexivity.
  - location_runs W s; reflexivity.
  - location_runs W s; reflexivity.
  - unit_runs W u s; reflexivity.
  - unit_runs W u s; reflexivity.
  - unit_runs W u s; reflexivity.
Qed.

(** X14: no handler leaves the loading indicator on: started with [loading]
    false, each of them ends with [loading] false, however the requests
    settle. *)
Theorem handlers_release_loading W u s :
  loading s = false →
  loading (state_after (searchCity W s) s) = false
  ∧ loading (state_after (useMyLocation W s) s) = false
  ∧ loading (state_after (changeUnit W u s) s) = false.
Proof.
  intros Hl. repeat split.
  - search_runs W s; done.
  - location_runs W s; done.
  - unit_runs W u s; done.
Qed.

(** X15: search, then toggle.  After a search that succeeded (the trimmed
    query not blank and encodable, both services answering ok), a change of
    unit asks for the forecast of the place just found, in the new unit, and
    asks nothing of the geocoding service. *)
Theorem search_then_changeUnit W W' u s body r rest w :
  trim (query s) ≠ [] →
  isWellFormed (trim (query s)) = true →
  geocoding W (trim (query s)) = Returned {| ok := true; json := Returned body |} →
  results body = Some (r :: rest) →
  forecast W (r_latitude r) (r_longitude r) (unit_param (unit_ s)) (speedUnit (unit_ s))
    = Returned {| ok := true; json := Returned w |} →
  u ≠ unit_ s →
  requests (changeUnit W' u (state_after (searchCity W s) s)) =
    [ForecastReq (r_latitude r) (r_longitude r) (unit_param u) (speedUnit u)].
Proof.
  intros Hq Hwf HW Hbody Hf Hu.
  set (p := {| name := r_name r; country := r_country_code r;
               lat := r_latitude r; lon := r_longitude r |}).
  assert ((geocodeCity W (trim (query s))).2 = Returned p) as Hg.
  { rewrite geocodeCity_outcome, Hwf, HW. simpl. by rewrite Hbody. }
  assert ((fetchWeather W (unit_ s) (lat p) (lon p)).2 = Returned w) as Hw.
  { rewrite fetchWeather_outcome. simpl. by rewrite Hf. }
  rewrite (searchCity_success W s p w) by auto using js_not_false.
  unfold changeUnit. cbn [state_after fst foldl update unit_].
  rewrite decide_False by done.
  match goal with
  | |- requests (_;; unit_effect W' ?s') = _ =>
      transitivity (requests (unit_effect W' s'));
        [by destruct (unit_effect W' s') as [evs []]
        |exact (unit_effect_requests W' s' p eq_refl)]
  end.
Qed.

End AllHandlers.

(** ** The view, at its edges *)

Lemma describe_daily_undefined tbl : describe_daily tbl None = ("—", "⛅").
Proof. reflexivity. Qed.

Section ViewProperties.

Context {number : Type}.
Context (Math_round : number → number) (NaN : number).
Context (formatDay formatTime : string → string).
Implicit Types (W : World number) (s : State number).

Lemma map_indexed_length {A B} (f : A → nat → Outcome B) l :
  ∀ k ys, map_indexed f k l = Returned ys → length ys = length l.
Proof.
  induction l as [|x l IH]; intros k ys; simpl.
  - by intros [= <-].
  - destruct (f x k) as [y|e]; simpl; [|discriminate].
    destruct (map_indexed f (S k) l) as [ys'|e] eqn:Hl; simpl; [|discriminate].
    intros [= <-]. simpl. f_equal. by eapply IH.
Qed.

(** X16: after a location lookup that succeeded the card title is
    "My location", with no country after it, and the page title is
    "My location • Breezy". *)
Theorem title_after_useMyLocation W s la lo w :
  geolocation W = Some (Returned (la, lo)) →
  (fetchWeather W (unit_ s) la lo).2 = Returned w →
  title (state_after (useMyLocation W s) s) = "My location"
  ∧ document_title (state_after (useMyLocation W s) s) = "My location • Breezy".
Proof.
  intros HW Hw. by rewrite (useMyLocation_success W s la lo w HW Hw).
Qed.

(** X17: the grid never holds more than five cards: when it renders cards
    at all, there are [min 5 n] of them, [n] the length of [daily.time]. *)
Theorem forecast_grid_at_most_five tbl s cards :
  forecast_grid Math_round NaN formatDay tbl s = Returned (Cards cards) →
  (length cards ≤ 5)%nat
  ∧ ∃ d dates, wx s ≫= daily = Some d ∧ time d = Some dates
               ∧ length cards = Nat.min 5 (length dates).
Proof.
  unfold forecast_grid.
  destruct (wx s ≫= daily) as [d|]; [|discriminate].
  destruct (time d) as [dates|] eqn:Ht; [|discriminate].
  destruct (map_indexed _ 0 (take 5 dates)) as [ys|e] eqn:Hm; simpl;
    [|discriminate].
  intros [= <-]. apply map_indexed_length in Hm.
  rewrite length_take in Hm. split; [lia|]. by exists d, dates.
Qed.

(** X18: "No forecast yet." is shown exactly when there is no [daily.time]
    array (no payload, no [daily], or no [time]).  An empty [time] array
    gives an empty grid instead, whatever the other arrays are. *)
Theorem no_forecast_yet_iff tbl s :
  (forecast_grid Math_round NaN formatDay tbl s = Returned NoForecastYet
   ↔ (wx s ≫= daily) ≫= time = None)
  ∧ ((wx s ≫= daily) ≫= time = Some [] →
     forecast_grid Math_round NaN formatDay tbl s = Returned (Cards [])).
Proof.
  unfold forecast_grid.
  destruct (wx s ≫= daily) as [d|]; simpl; [|done].
  destruct (time d) as [dates|]; [|done]. split.
  - split; [|discriminate].
    by destruct (map_indexed _ 0 (take 5 dates)).
  - by intros [= ->].
Qed.

(** X19: with at least one date and one of the three value arrays missing,
    rendering the grid throws. *)
Theorem forecast_grid_missing_array_throws tbl s d date dates :
  wx s ≫= daily = Some d →
  time d = Some (date :: dates) →
  weather_code d = None ∨ temperature_2m_max d = None
    ∨ temperature_2m_min d = None →
  ∃ e, forecast_grid Math_round NaN formatDay tbl s = Thrown e.
Proof.
  intros Hd Ht Hmiss. unfold forecast_grid. rewrite Hd, Ht. simpl.
  assert (∃ e, day_card Math_round NaN formatDay tbl (unit_ s) d date 0
               = Thrown e) as [e ->]; [|by eexists].
  unfold day_card.
  destruct Hmiss as [->|[->| ->]]; simpl; [by eexists|..];
    destruct (weather_code d); simpl; try (by eexists);
    destruct (temperature_2m_max d); simpl; by eexists.
Qed.

(** X20: arrays shorter than [time] do not stop the grid.  A day past the
    end of [weather_code] gets the fallback label and icon; a day past the
    end of a temperature array shows [NaN]. *)
Theorem forecast_grid_short_arrays s d dates codes maxs mins :
  wx s ≫= daily = Some d →
  time d = Some dates →
  weather_code d = Some codes →
  temperature_2m_max d = Some maxs →
  temperature_2m_min d = Some mins →
  ∃ cards,
    forecast_grid Math_round NaN formatDay WMO s = Returned (Cards cards)
    ∧ ∀ i card, cards !! i = Some card →
        ((length codes ≤ i)%nat → card_label card = "—" ∧ card_emoji card = "⛅")
        ∧ ((length maxs ≤ i)%nat → card_max card = NaN)
        ∧ ((length mins ≤ i)%nat → card_min card = NaN).
Proof.
  intros Hd Ht Hc Hmax Hmin.
  destruct (wx s) as [w|] eqn:Hw; [|discriminate]. simpl in Hd.
  eexists. split; [by eapply forecast_grid_cards|].
  intros i card. rewrite list_lookup_imap.
  destruct (take 5 dates !! i) as [date|]; [|discriminate].
  intros [= <-]. unfold card_at.
  cbn [card_label card_emoji card_max card_min]. split; [|split].
  - intros Hi. by rewrite (lookup_ge_None_2 codes i Hi), describe_daily_undefined.
  - intros Hi. by rewrite (lookup_ge_None_2 maxs i Hi).
  - intros Hi. by rewrite (lookup_ge_None_2 mins i Hi).
Qed.

(** X21: the toggle.  The highlighted button carries the suffix of the unit
    in use, and clicking it changes nothing and asks nothing.  The other
    button selects the other unit, and after the click the temperature
    suffix and the unit pill show that button's caption. *)
Theorem toggle_buttons W s b :
  b ∈ Toggle (unit_ s) →
  (tb_highlighted b = true →
     tb_caption b = tempSuffix (unit_ s)
     ∧ requests (changeUnit W (tb_sets b) s) = []
     ∧ state_after (changeUnit W (tb_sets b) s) s = s)
  ∧ (tb_highlighted b = false →
     tb_sets b ≠ unit_ s
     ∧ tempSuffix (unit_ (state_after (changeUnit W (tb_sets b) s) s))
       = tb_caption b
     ∧ UnitPill (unit_ (state_after (changeUnit W (tb_sets b) s) s))
       = "Unit: " +:+ tb_caption b).
Proof.
  assert (unit_ (state_after (changeUnit W (tb_sets b) s) s) = tb_sets b) as ->.
  { destruct (changeUnit_cases W (tb_sets b) s)
      as [(_ & ->)|[(_ & _ & ->)|[(_ & ? & ? & _ & _ & ->)
                                  |(_ & ? & ? & _ & _ & ->)]]]; reflexivity. }
  unfold Toggle.
  intros [->|[->|[]%elem_of_nil]%elem_of_cons]%elem_of_cons; simpl;
    destruct (unit_ s) eqn:Hu; simpl; (split; [|done || by intros _]);
    try done; intros _; (split; [done|]);
    unfold changeUnit; rewrite Hu, decide_True by done;
    (split; [done|]); destruct s; simpl in *; by subst.
Qed.

End ViewProperties.

(** ** Requests and the loading flag; the query and its blanks *)

Lemma trimStart_idemp (q : jsstring) : trimStart (trimStart q) = trimStart q.
Proof.
  induction q as [|c q IH]; simpl; [done|].
  destruct (is_white_space c) eqn:Hc; [done|]. simpl. by rewrite Hc.
Qed.

Lemma trimEnd_idemp (q : jsstring) : trimEnd (trimEnd q) = trimEnd q.
Proof. unfold trimEnd. by rewrite rev_involutive, trimStart_idemp. Qed.

Lemma trimEnd_cons (c : N) (r : jsstring) :
  is_white_space c = false → trimEnd (c :: r) = c :: trimEnd r.
Proof.
  intros Hc. unfold trimEnd. simpl.
  by rewrite (trimStart_snoc_eq _ _ Hc), rev_unit.
Qed.

Lemma trim_idemp (q : jsstring) : trim (trim q) = trim q.
Proof.
  unfold trim. destruct (trimStart q) as [|c r] eqn:Hq; [done|].
  pose proof (trimStart_head _ _ _ Hq) as Hc.
  rewrite (trimEnd_cons c r Hc). simpl. rewrite Hc.
  by rewrite <- (trimEnd_cons c r Hc), trimEnd_idemp.
Qed.

Section Ordering.

Context {number : Type}.
Context (Math_round : number → number) (formatTime : string → string).
Implicit Types (W : World number) (s : State number).

Lemma loading_at_each_fetch_prefix (l : list (Event number)) :
  ∀ s, loading_at_each_fetch l s = true →
  ∀ evs r rest, l = evs ++ Fetch r :: rest →
  loading (foldl (λ s ev, update ev s) s evs) = true.
Proof.
  induction l as [|ev l IH]; intros s Hl evs r rest Heq.
  - by destruct evs.
  - simpl in Hl. apply andb_prop in Hl as [Hev Hl].
    destruct evs as [|ev' evs]; simpl in Heq; injection Heq as -> ->.
    + exact Hev.
    + simpl. by eapply IH.
Qed.

(** X22: every request of every handler goes out while [loading] is true:
    at the moment a handler calls [fetch], the setters it has called so far
    have left [loading] true. *)
Theorem requests_issued_while_loading W u s evs r rest :
  (searchCity W s).1 = evs ++ Fetch r :: rest
  ∨ (useMyLocation W s).1 = evs ++ Fetch r :: rest
  ∨ (changeUnit W u s).1 = evs ++ Fetch r :: rest →
  loading (foldl (λ s ev, update ev s) s evs) = true.
Proof.
  intros [H|[H|H]]; eapply loading_at_each_fetch_prefix; try exact H.
  - destruct (searchCity_cases W s)
      as [(_ & ->)|[(_ & ? & _ & ->)|[(_ & ? & ? & _ & _ & ->)
                                      |(_ & ? & ? & _ & _ & ->)]]];
      try destruct (isWellFormed (trim (query s)));
      reflexivity.
  - destruct (useMyLocation_cases W s)
      as [(_ & ->)|[(? & _ & ->)|[(? & ? & ? & _ & _ & ->)
                                  |(? & ? & ? & _ & _ & ->)]]];
      reflexivity.
  - destruct (changeUnit_cases W u s)
      as [(_ & ->)|[(_ & _ & ->)|[(_ & ? & ? & _ & _ & ->)
                                  |(_ & ? & ? & _ & _ & ->)]]];
      reflexivity.
Qed.

(** X23: blanks around the query make no difference: a search from the
    state whose query is already trimmed records the same events, and ends
    with the same [place], [wx], [loading] and [error]. *)
Theorem searchCity_ignores_surrounding_blanks W s :
  searchCity W (update (SetQuery (trim (query s))) s) = searchCity W s
  ∧ place (state_after (searchCity W (update (SetQuery (trim (query s))) s))
                       (update (SetQuery (trim (query s))) s))
    = place (state_after (searchCity W s) s)
  ∧ wx (state_after (searchCity W (update (SetQuery (trim (query s))) s))
                    (update (SetQuery (trim (query s))) s))
    = wx (state_after (searchCity W s) s)
  ∧ loading (state_after (searchCity W (update (SetQuery (trim (query s))) s))
                         (update (SetQuery (trim (query s))) s))
    = loading (state_after (searchCity W s) s)
  ∧ error (state_after (searchCity W (update (SetQuery (trim (query s))) s))
                       (update (SetQuery (trim (query s))) s))
    = error (state_after (searchCity W s) s).
Proof.
  assert (searchCity W (update (SetQuery (trim (query s))) s) = searchCity W s)
    as ->.
  { unfold searchCity. cbn [update query unit_]. by rewrite trim_idemp. }
  split; [done|].
  destruct (searchCity_cases W s)
    as [(_ & ->)|[(_ & ? & _ & ->)|[(_ & ? & ? & _ & _ & ->)
                                    |(_ & ? & ? & _ & _ & ->)]]];
    try destruct (isWellFormed (trim (query s)));
    by repeat split.
Qed.

(** X24: after a change of unit whose refresh failed, the current-conditions
    card shows the numbers of the forecast fetched in the old unit with the
    suffix and the wind unit of the new one. *)
Theorem changeUnit_failure_view tbl W u s p w c e :
  u ≠ unit_ s →
  place s = Some p →
  wx s = Some w →
  current w = Some c →
  (fetchWeather W u (lat p) (lon p)).2 = Thrown e →
  current_view Math_round formatTime tbl (state_after (changeUnit W u s) s) =
    ConditionsView
      {| cc_emoji := (describe_current tbl (c_weather_code c)).2;
         cc_temperature := Math_round (c_temperature_2m c);
         cc_label := (describe_current tbl (c_weather_code c)).1;
         cc_feels_like := Math_round (c_apparent_temperature c);
         cc_humidity := c_relative_humidity_2m c;
         cc_wind := Math_round (c_wind_speed_10m c);
         cc_wind_unit := speedUnit u;
         cc_updated := formatTime (c_time c);
         cc_suffix := tempSuffix u |}.
Proof.
  intros Hu Hp Hw Hc He.
  destruct (changeUnit_cases W u s)
    as [(? & _)|[(_ & Hn & _)|[(_ & p' & w' & Hp' & Hw' & _)
                               |(_ & p' & e' & Hp' & He' & ->)]]];
    try congruence.
  unfold current_view. cbn [state_after fst foldl update loading wx unit_].
  rewrite Hw. simpl. by rewrite Hc.
Qed.

End Ordering.

(** ** Concrete runs of the further properties *)

Lemma searchCity_end_to_end_witness :
  requests (searchCity all_up searching_padded)
  = [GeocodeReq (code_units "Paris"); ForecastReq 48%Z 2%Z "fahrenheit" "mph"]
  ∧ state_after (searchCity all_up searching_padded) searching_padded
    = {| query := code_units "  Paris "; unit_ := fahrenheit;
         place := Some paris; wx := Some sunny;
         loading := false; error := "" |}.
Proof.
  apply (searchCity_end_to_end all_up searching_padded
           {| results := Some [paris_result] |} paris_result [] sunny);
    [discriminate | reflexivity | reflexivity | reflexivity | reflexivity].
Defined.

Lemma searchCity_error_iff_failure_witness :
  loading (state_after (searchCity offline searching_paris) searching_paris) = false.
Proof.
  destruct (searchCity_error_iff_failure offline searching_paris) as (_ & H & _);
    [discriminate | exact H].
Defined.

(** With the network unreachable and no message on the rejection, the
    fallback text is shown. *)
Example searchCity_offline :
  error (state_after (searchCity offline searching_paris) searching_paris)
  = "Something went wrong".
Proof. reflexivity. Qed.

Lemma searchCity_geocodes_trimmed_name_witness :
  code_units "Paris" = trim (query searching_padded).
Proof.
  destruct (searchCity_geocodes_trimmed_name all_up searching_padded
              (code_units "Paris")) as (H & _);
    [apply elem_of_cons; left; reflexivity | exact H].
Defined.

Lemma searchCity_geocoding_status_witness :
  requests (searchCity geocoding_down searching_paris)
  = [GeocodeReq (code_units "Paris")]
  ∧ state_after (searchCity geocoding_down searching_paris) searching_paris
    = {| query := code_units "Paris"; unit_ := fahrenheit;
         place := Some orlando; wx := Some sunny;
         loading := false; error := "Geocoding failed" |}.
Proof.
  apply (searchCity_geocoding_status geocoding_down searching_paris
           (Thrown {| message := "Unexpected token" |}));
    [discriminate | reflexivity | reflexivity].
Defined.


Lemma useMyLocation_unsupported_witness :
  state_after (useMyLocation no_geolocation search_in_flight) search_in_flight
  = {| query := code_units "Paris"; unit_ := fahrenheit;
       place := Some orlando; wx := Some sunny;
       loading := true; error := "Geolocation not supported" |}.
Proof.
  destruct (useMyLocation_unsupported no_geolocation search_in_flight) as [_ H];
    [reflexivity | exact H].
Defined.

Lemma useMyLocation_denied_witness :
  error (state_after (useMyLocation permission_denied searching_paris) searching_paris)
  = "Location permission denied".
Proof.
  destruct (useMyLocation_denied permission_denied searching_paris
              {| message := "" |}) as (_ & H & _);
    [reflexivity | by rewrite H].
Defined.

Lemma useMyLocation_end_to_end_witness :
  requests (useMyLocation all_up stale_error)
  = [ForecastReq 28%Z (-81)%Z "fahrenheit" "mph"]
  ∧ state_after (useMyLocation all_up stale_error) stale_error
    = {| query := code_units "Paris"; unit_ := fahrenheit;
         place := Some {| name := "My location"; country := "";
                          lat := 28%Z; lon := (-81)%Z |};
         wx := Some sunny; loading := false; error := "" |}.
Proof.
  apply (useMyLocation_end_to_end all_up stale_error 28%Z (-81)%Z sunny);
    reflexivity.
Defined.

Lemma changeUnit_success_keeps_error_witness :
  state_after (changeUnit all_up celsius stale_error) stale_error
  = {| query := code_units "Paris"; unit_ := celsius;
       place := Some orlando; wx := Some sunny;
       loading := false; error := "Weather fetch failed" |}.
Proof.
  apply (changeUnit_success_keeps_error all_up celsius stale_error orlando sunny);
    [discriminate | reflexivity | reflexivity].
Defined.

Lemma changeUnit_failure_switches_unit_witness :
  state_after (changeUnit forecast_down celsius searching_paris) searching_paris
  = {| query := code_units "Paris"; unit_ := celsius;
       place := Some orlando; wx := Some sunny;
       loading := false; error := "Weather fetch failed" |}.
Proof.
  destruct (changeUnit_failure_switches_unit forecast_down celsius searching_paris
              orlando {| message := "Weather fetch failed" |}) as [H _];
    [discriminate | reflexivity | reflexivity | exact H].
Defined.

Lemma forecast_requests_units_agree_witness :
  ("celsius" = "fahrenheit" ∧ "kmh" = "mph") ∨ ("celsius" = "celsius" ∧ "kmh" = "kmh").
Proof.
  apply (forecast_requests_units_agree all_up celsius searching_paris
           28%Z (-81)%Z "celsius" "kmh").
  apply elem_of_app; right. apply elem_of_app; right.
  apply elem_of_cons; left; reflexivity.
Defined.

Lemma handlers_release_loading_witness :
  loading (state_after (searchCity forecast_down searching_paris) searching_paris) = false
  ∧ loading (state_after (useMyLocation forecast_down searching_paris) searching_paris) = false
  ∧ loading (state_after (changeUnit forecast_down celsius searching_paris) searching_paris) = false.
Proof.
  apply (handlers_release_loading forecast_down celsius searching_paris).
  reflexivity.
Defined.

Lemma search_then_changeUnit_witness :
  requests (changeUnit forecast_down celsius
              (state_after (searchCity all_up searching_padded) searching_padded))
  = [ForecastReq 48%Z 2%Z "celsius" "kmh"].
Proof.
  apply (search_then_changeUnit all_up forecast_down celsius searching_padded
           {| results := Some [paris_result] |} paris_result [] sunny);
    [discriminate | reflexivity | reflexivity | reflexivity | reflexivity
    | discriminate].
Defined.

Lemma title_after_useMyLocation_witness :
  title (state_after (useMyLocation all_up searching_paris) searching_paris)
  = "My location"
  ∧ document_title (state_after (useMyLocation all_up searching_paris) searching_paris)
    = "My location • Breezy".
Proof.
  apply (title_after_useMyLocation all_up searching_paris 28%Z (-81)%Z sunny);
    reflexivity.
Defined.

Lemma forecast_grid_at_most_five_witness :
  ∃ cards,
    forecast_grid (λ x, x) 0%Z (λ iso, iso) WMO searching_paris = Returned (Cards cards)
    ∧ (length cards ≤ 5)%nat.
Proof.
  eexists. split; [vm_compute; reflexivity|].
  refine (proj1 (forecast_grid_at_most_five (λ x, x) 0%Z (λ iso, iso) WMO
                   searching_paris _ _)).
  vm_compute; reflexivity.
Defined.

Lemma forecast_grid_missing_array_throws_witness :
  ∃ e, forecast_grid (λ x, x) 0%Z (λ iso, iso) WMO codes_missing = Thrown e.
Proof.
  eapply (forecast_grid_missing_array_throws (λ x, x) 0%Z (λ iso, iso) WMO
            codes_missing _ "2025-01-01" ["2025-01-02"]);
    [reflexivity | reflexivity | left; reflexivity].
Defined.

(** An empty [time] array: an empty grid, not the "No forecast yet." text. *)
Example forecast_grid_no_days :
  forecast_grid (λ x, x) 0%Z (λ iso, iso) WMO no_days = Returned (Cards []).
Proof. reflexivity. Qed.

Lemma forecast_grid_short_arrays_witness :
  ∃ cards,
    forecast_grid (λ x, x) 0%Z (λ iso, iso) WMO ragged = Returned (Cards cards)
    ∧ ∀ i card, cards !! i = Some card →
        ((1 ≤ i)%nat → card_label card = "—" ∧ card_emoji card = "⛅")
        ∧ ((1 ≤ i)%nat → card_max card = 0%Z)
        ∧ ((1 ≤ i)%nat → card_min card = 0%Z).
Proof.
  eapply (forecast_grid_short_arrays (λ x, x) 0%Z (λ iso, iso) ragged _
           ["2025-01-01"; "2025-01-02"; "2025-01-03"] [0%Z] [70%Z] [50%Z]);
    reflexivity.
Defined.

Lemma toggle_buttons_witness :
  tempSuffix (unit_ (state_after (changeUnit all_up celsius searching_paris)
                                 searching_paris)) = "°C".
Proof.
  destruct (toggle_buttons all_up searching_paris
              {| tb_caption := "°C"; tb_highlighted := false; tb_sets := celsius |})
    as [_ H].
  - apply elem_of_cons; right. apply elem_of_cons; left. reflexivity.
  - destruct (H eq_refl) as (_ & H' & _). exact H'.
Defined.

Lemma requests_issued_while_loading_witness :
  loading (foldl (λ s ev, update ev s) searching_paris
             [SetError ""; SetLoading true;
              Fetch (GeocodeReq (code_units "Paris")); SetPlace paris]) = true.
Proof.
  apply (requests_issued_while_loading all_up celsius searching_paris
           [SetError ""; SetLoading true;
            Fetch (GeocodeReq (code_units "Paris")); SetPlace paris]
           (ForecastReq 48%Z 2%Z "fahrenheit" "mph")
           [SetWx sunny; SetLoading false]).
  left. reflexivity.
Defined.

Lemma changeUnit_failure_view_witness :
  ∃ v, current_view (λ x, x) (λ iso, iso) WMO
         (state_after (changeUnit forecast_down celsius searching_paris)
                      searching_paris) = ConditionsView v
       ∧ cc_temperature v = 70%Z ∧ cc_suffix v = "°C" ∧ cc_wind_unit v = "kmh".
Proof.
  eexists. split.
  - eapply (changeUnit_failure_view (λ x, x) (λ iso, iso) WMO forecast_down
              celsius searching_paris orlando sunny _
              {| message := "Weather fetch failed" |});
      [discriminate | reflexivity | reflexivity | reflexivity | reflexivity].
  - repeat split.
Defined.

(** A surrogate pair is well formed; a surrogate on its own, leading or
    trailing, is not, and neither is a pair in the wrong order. *)
Example isWellFormed_surrogates :
  isWellFormed [0xD83D; 0xDE00]%N = true
  ∧ isWellFormed [0xD800]%N = false
  ∧ isWellFormed [0xDC00]%N = false
  ∧ isWellFormed [0xDE00; 0xD83D]%N = false
  ∧ isWellFormed (code_units "Paris") = true.
Proof. repeat split. Qed.
